(** * Holdings aggregation of [src/lib/snaptrade.ts]

    A shallow embedding of [isEquitySymbol], [aggregateHoldings],
    [getAccountHoldings] and [getAllHoldings], and of the request layer
    below them: [getConfig], [generateSignature], [snapTradeRequest],
    [mapHttpStatusToErrorCode], [getAccounts], [mapAccountType] and
    [validateConnection].  The request layer reads parsed JSON as it is at
    run time, where no type is enforced.

    JavaScript numbers are IEEE 754 binary64 values; they are modelled by
    Rocq's primitive [float], whose [add], [mul] and [div] are the same
    round-to-nearest-even operations.  An optional number
    ([averagePurchasePrice?: number]) is an [option float], [None] standing
    for [undefined].  Symbols are [string]s whose characters stand for the
    UTF-16 code units of the JavaScript string (code units below 256). *)

From Stdlib Require Import Floats ZArith NArith List String Ascii Bool.
From Stdlib Require Import DecimalString Permutation Lia.
Import ListNotations.

Set Warnings "-inexact-float,-register-all".
Local Open Scope string_scope.
Local Open Scope list_scope.

(* ================================================================== *)
(** ** JavaScript numbers, [undefined], truthiness *)

Module Js.

(** [ToBoolean] on a number: [0], [-0] and [NaN] are falsy. *)
Definition truthy_num (x : float) : bool :=
  negb (PrimFloat.is_zero x || PrimFloat.is_nan x).

(** [ToBoolean] on [number | undefined]. *)
Definition truthy (v : option float) : bool :=
  match v with
  | None => false
  | Some x => truthy_num x
  end.

(** [a && b] and [a || b] return one of their operands. *)
Definition and_ (a b : option float) : option float :=
  if truthy a then b else a.

Definition or_ (a b : option float) : option float :=
  if truthy a then a else b.

(** [ToNumber]: [undefined] becomes [NaN]. *)
Definition to_number (v : option float) : float :=
  match v with
  | None => PrimFloat.nan
  | Some x => x
  end.

(** Results of calls that may throw. *)
Inductive completion (E A : Type) : Type :=
| Return (a : A)
| Throw (e : E).
Arguments Return {E A} a.
Arguments Throw {E A} e.

(** The [TypeError]s of this file: reading a property of [null] or
    [undefined], calling something that is not a function, and converting
    to a string an object that has no usable [toString]. *)
Inductive NullishKind : Type := IsNull | IsUndefined.

Inductive TypeError : Type :=
| CannotRead (base : NullishKind) (property : string)
| NotAFunction (callee : string)
| CannotConvertToPrimitive.

(** [String(null)] and [String(undefined)] *)
Definition nullish_to_string (k : NullishKind) : string :=
  match k with
  | IsNull => "null"
  | IsUndefined => "undefined"
  end.

End Js.

(* ================================================================== *)
(** ** The equity filter *)

Module Symbol.

(** [\d] *)
Definition is_digit (c : ascii) : bool :=
  (48 <=? nat_of_ascii c)%nat && (nat_of_ascii c <=? 57)%nat.

(** [[CP]] *)
Definition is_C_or_P (c : ascii) : bool :=
  Ascii.eqb c "C" || Ascii.eqb c "P".

(** [\d{n}] at the head of [s]: the rest of the string after [n] digits. *)
Fixpoint digits_exactly (n : nat) (s : string) : option string :=
  match n with
  | O => Some s
  | S n' =>
      match s with
      | String c r => if is_digit c then digits_exactly n' r else None
      | EmptyString => None
      end
  end.

(** [\d*], greedy. *)
Fixpoint digits_star (s : string) : string :=
  match s with
  | String c r => if is_digit c then digits_star r else s
  | EmptyString => EmptyString
  end.

(** [\d+], greedy. *)
Definition digits_plus (s : string) : option string :=
  match s with
  | String c r => if is_digit c then Some (digits_star r) else None
  | EmptyString => None
  end.

Definition class_CP (s : string) : option string :=
  match s with
  | String c r => if is_C_or_P c then Some r else None
  | EmptyString => None
  end.

(** [/\d{6}[CP]\d+/] matched at the head of [s]. *)
Definition option_match_here (s : string) : bool :=
  match digits_exactly 6 s with
  | Some r1 =>
      match class_CP r1 with
      | Some r2 =>
          match digits_plus r2 with
          | Some _ => true
          | None => false
          end
      | None => false
      end
  | None => false
  end.

(** [/\d{6}[CP]\d+/.test(s)]: the pattern is not anchored, so every start
    position is tried from left to right. *)
Fixpoint option_regex_test (s : string) : bool :=
  option_match_here s ||
  match s with
  | String _ r => option_regex_test r
  | EmptyString => false
  end.

(** [s.includes(needle)] *)
Fixpoint includes (needle s : string) : bool :=
  String.prefix needle s ||
  match s with
  | String _ r => includes needle r
  | EmptyString => false
  end.

Definition isEquitySymbol (symbol : string) : bool :=
  if option_regex_test symbol then false
  else if includes " " symbol then false
  else if (5 <? String.length symbol)%nat && negb (includes "." symbol) then false
  else true.

(** *** The policy as the specification words it *)

Inductive AllDigits : string -> Prop :=
| AllDigits_nil : AllDigits EmptyString
| AllDigits_cons c s : is_digit c = true -> AllDigits s -> AllDigits (String c s).

(** Six digits, then [C] or [P], then one or more digits, anywhere in the
    symbol. *)
Definition OptionPattern (s : string) : Prop :=
  exists pre d6 cp ds post,
    s = (pre ++ d6 ++ String cp (ds ++ post))%string
    /\ String.length d6 = 6 /\ AllDigits d6
    /\ (cp = "C"%char \/ cp = "P"%char)
    /\ ds <> EmptyString /\ AllDigits ds.

Definition Contains (c : ascii) (s : string) : Prop :=
  exists pre post, s = (pre ++ String c post)%string.

Definition Rejected (s : string) : Prop :=
  OptionPattern s \/ Contains " " s \/
  (5 < String.length s /\ ~ Contains "." s).

End Symbol.

(* ================================================================== *)
(** ** Positions, holdings and the aggregator *)

Module Holdings.

Import Js.

(** Modelled from the spec: the declarations of [SnapTradePosition] and
    [PortfolioHolding] live in [src/lib/types/brokerage], which is not part
    of the sources at hand.  The fields are those that [getAccountHoldings]
    and [aggregateHoldings] write, with the types of the specification's
    data model; [currentValue] and [averagePrice] are optional, as their
    [||] defaults in [aggregateHoldings] show. *)
Record SnapTradePosition : Type := mkPosition {
  symbol : string;
  description : string;
  units : float;
  price : float;
  marketValue : float;
  currency : string;
  averagePurchasePrice : option float;
  percentOfPortfolio : float
}.

Record PortfolioHolding : Type := mkHolding {
  ticker : string;
  shares : float;
  currentValue : option float;
  averagePrice : option float;
  holdingCurrency : string
}.

(** A [Map<string, PortfolioHolding>]: entries in insertion order. *)
Definition HoldingsMap : Type := list (string * PortfolioHolding).

(** [holdingsMap.get(key)] *)
Fixpoint map_get (key : string) (m : HoldingsMap) : option PortfolioHolding :=
  match m with
  | [] => None
  | (k, v) :: m' => if String.eqb k key then Some v else map_get key m'
  end.

(** [holdingsMap.set(key, value)]: an existing key keeps its place, a new
    key goes last. *)
Fixpoint map_set (key : string) (value : PortfolioHolding) (m : HoldingsMap)
  : HoldingsMap :=
  match m with
  | [] => [(key, value)]
  | (k, v) :: m' =>
      if String.eqb k key then (k, value) :: m'
      else (k, v) :: map_set key value m'
  end.

(** The object that [get] returned is shared with the map: the three
    assignments to [existing] update the entry where it stands. *)
Fixpoint map_assign (key : string) (value : PortfolioHolding) (m : HoldingsMap)
  : HoldingsMap :=
  match m with
  | [] => []
  | (k, v) :: m' =>
      if String.eqb k key then (k, value) :: m'
      else (k, v) :: map_assign key value m'
  end.

(** [Array.from(holdingsMap.values())] *)
Definition map_values (m : HoldingsMap) : list PortfolioHolding :=
  map snd m.

(** The [if (existing)] branch: the state of [existing] after the three
    assignments. *)
Definition combineHoldings (existing : PortfolioHolding) (pos : SnapTradePosition)
  : PortfolioHolding :=
  let totalUnits := (shares existing + units pos)%float in
  let totalValue :=
    (to_number (or_ (currentValue existing) (Some 0%float)) + marketValue pos)%float in
  let weightedAvgPrice :=
    if truthy (and_ (averagePrice existing) (averagePurchasePrice pos))
    then Some (((shares existing * to_number (averagePrice existing))
                + (units pos * to_number (averagePurchasePrice pos)))
               / totalUnits)%float
    else or_ (averagePrice existing) (averagePurchasePrice pos) in
  {| ticker := ticker existing;
     shares := totalUnits;
     currentValue := Some totalValue;
     averagePrice := weightedAvgPrice;
     holdingCurrency := holdingCurrency existing |}.

(** The [else] branch: the object literal stored for a new symbol. *)
Definition fresh (pos : SnapTradePosition) : PortfolioHolding :=
  {| ticker := symbol pos;
     shares := units pos;
     currentValue := Some (marketValue pos);
     averagePrice := averagePurchasePrice pos;
     holdingCurrency := currency pos |}.

(** One iteration of [for (const pos of positions)]. *)
Definition loop_body (holdingsMap : HoldingsMap) (pos : SnapTradePosition)
  : HoldingsMap :=
  if negb (Symbol.isEquitySymbol (symbol pos)) then holdingsMap
  else
    match map_get (symbol pos) holdingsMap with
    | Some existing =>
        map_assign (symbol pos) (combineHoldings existing pos) holdingsMap
    | None =>
        map_set (symbol pos) (fresh pos) holdingsMap
    end.

Definition aggregateHoldings (positions : list SnapTradePosition)
  : list PortfolioHolding :=
  map_values (fold_left loop_body positions []).





(** *** Vocabulary of the claims *)

(** The entry of the output array for a ticker. *)
Definition reported (t : string) (out : list PortfolioHolding)
  : option PortfolioHolding :=
  find (fun h => String.eqb (ticker h) t) out.

(** The positions that carry ticker [t] and pass the equity filter, in input
    order. *)
Definition contributing (t : string) (positions : list SnapTradePosition)
  : list SnapTradePosition :=
  filter (fun p => Symbol.isEquitySymbol (symbol p) && String.eqb (symbol p) t)
         positions.

(** The sum of a non-empty sequence of numbers, added from left to right as
    the loop adds them; the empty sum is [0]. *)
Definition sum_numbers (xs : list float) : float :=
  match xs with
  | [] => 0%float
  | x :: r => fold_left PrimFloat.add r x
  end.

(** The running total of [currentValue]: each step adds the next market
    value to [existing.currentValue || 0]. *)
Definition add_value (acc v : float) : float :=
  (to_number (or_ (Some acc) (Some 0%float)) + v)%float.

Definition sum_values (xs : list float) : float :=
  match xs with
  | [] => 0%float
  | x :: r => fold_left add_value r x
  end.

(** What the loop does to the entry of one ticker when it meets a position
    that contributes to it, and the entry it has built once it has met a
    whole sequence of them. *)
Definition absorb (entry : option PortfolioHolding) (pos : SnapTradePosition)
  : option PortfolioHolding :=
  match entry with
  | Some existing => Some (combineHoldings existing pos)
  | None => Some (fresh pos)
  end.

Definition consolidate (ps : list SnapTradePosition)
  : option PortfolioHolding :=
  fold_left absorb ps None.

(** A position of [u] units of [sym] quoted at [pr], as [getAccountHoldings]
    builds it for a US-dollar symbol; used for the scenarios below. *)
Definition stock (sym : string) (u pr : float) (avg : option float)
  : SnapTradePosition :=
  {| symbol := sym;
     description := sym;
     units := u;
     price := pr;
     marketValue := (u * pr)%float;
     currency := "USD";
     averagePurchasePrice := avg;
     percentOfPortfolio := 0%float |}.

(** Every entry of the map is stored under its own ticker, and no key
    occurs twice. *)
Definition well_keyed (m : HoldingsMap) : Prop :=
  NoDup (map fst m) /\ Forall (fun kv => ticker (snd kv) = fst kv) m.

(** The elements of a list of symbols, each listed once, in the order of
    their first occurrence. *)
Fixpoint distinct (l : list string) : list string :=
  match l with
  | [] => []
  | x :: r => x :: filter (fun y => negb (String.eqb y x)) (distinct r)
  end.

(** The symbols of the positions that pass the equity filter, in input
    order. *)
Definition accepted_symbols (positions : list SnapTradePosition)
  : list string :=
  map symbol (filter (fun p => Symbol.isEquitySymbol (symbol p)) positions).

End Holdings.

(* ================================================================== *)
(** ** Fetching the positions of every account *)

Module Orchestrator.

Import Js Holdings.

(** [truthy] for [string | undefined]: the empty string is falsy. *)
Definition or_string (a : option string) (b : string) : string :=
  match a with
  | Some (String c r) => String c r
  | _ => b
  end.

(** One element of [response.positions]. *)
Record RawPosition : Type := mkRaw {
  raw_symbol : string;                     (* pos.symbol.symbol *)
  raw_description : option string;         (* pos.symbol.description *)
  raw_currency_code : option string;       (* pos.symbol.currency?.code *)
  raw_units : float;
  raw_price : float;
  fractional_units : option float;
  average_purchase_price : option float
}.

Record HoldingsResponse : Type := mkResponse {
  positions : list RawPosition;
  total_value : float
}.

(** Modelled from the spec: [SnapTradeAccount] is declared in
    [src/lib/types/brokerage], which is not part of the sources at hand;
    the fields are those of the object literal in [getAccounts]. *)
Record SnapTradeAccount : Type := mkAccount {
  id : string;
  name : string;
  number : string;
  accountType : string;
  accountCurrency : string;
  balance : float;
  holdings : list SnapTradePosition
}.

(** What the brokerage answers during one call of [getAllHoldings]: the
    outcome of [getAccounts] and, per account id, the outcome of the
    [GET /accounts/{id}/holdings] request. *)
Record Brokerage (E : Type) : Type := mkBrokerage {
  accountsReply : completion E (list SnapTradeAccount);
  holdingsReply : string -> completion E HoldingsResponse
}.
Arguments accountsReply {E} _.
Arguments holdingsReply {E} _ _.

(** The arrow function mapped over [response.positions]. *)
Definition toPosition (totalValue : float) (pos : RawPosition)
  : SnapTradePosition :=
  {| symbol := raw_symbol pos;
     description := or_string (raw_description pos) (raw_symbol pos);
     units := (raw_units pos
               + to_number (or_ (fractional_units pos) (Some 0%float)))%float;
     price := raw_price pos;
     marketValue :=
       ((raw_units pos
         + to_number (or_ (fractional_units pos) (Some 0%float)))
        * raw_price pos)%float;
     currency := or_string (raw_currency_code pos) "USD";
     averagePurchasePrice := average_purchase_price pos;
     percentOfPortfolio :=
       (((raw_units pos * raw_price pos) / totalValue) * 100)%float |}.

Definition getAccountHoldings {E} (net : Brokerage E) (accountId : string)
  : completion E (list SnapTradePosition) :=
  match holdingsReply net accountId with
  | Throw e => Throw e
  | Return response =>
      let totalValue :=
        to_number (or_ (Some (total_value response)) (Some 1%float)) in
      Return (map (toPosition totalValue) (positions response))
  end.

(** The outcome of one [async (account) => { try ... catch ... }] callback:
    the array it resolves to, the account object after the callback, and
    the lines it wrote with [console.error]. *)
Record Fetched (E : Type) : Type := mkFetched {
  fetchedPositions : list SnapTradePosition;
  fetchedAccount : SnapTradeAccount;
  fetchedErrors : list (string * E)
}.
Arguments fetchedPositions {E} _.
Arguments fetchedAccount {E} _.
Arguments fetchedErrors {E} _.

Definition set_holdings (account : SnapTradeAccount)
  (ps : list SnapTradePosition) : SnapTradeAccount :=
  {| id := id account; name := name account; number := number account;
     accountType := accountType account;
     accountCurrency := accountCurrency account;
     balance := balance account; holdings := ps |}.

Definition fetchAccount {E} (net : Brokerage E) (account : SnapTradeAccount)
  : Fetched E :=
  match getAccountHoldings net (id account) with
  | Return ps =>
      {| fetchedPositions := ps;
         fetchedAccount := set_holdings account ps;
         fetchedErrors := [] |}
  | Throw error =>
      {| fetchedPositions := [];
         fetchedAccount := account;
         fetchedErrors :=
           [(("Failed to fetch holdings for account " ++ id account ++ ":")%string,
             error)] |}
  end.

Record AllHoldings (E : Type) : Type := mkAllHoldings {
  resultHoldings : list PortfolioHolding;
  resultAccounts : list SnapTradeAccount;
  consoleErrors : list (string * E)
}.
Arguments resultHoldings {E} _.
Arguments resultAccounts {E} _.
Arguments consoleErrors {E} _.

(** [Promise.all] keeps the order of the accounts whatever the order in
    which the requests complete, and no callback rejects, so the joined
    array is the [map] of the callbacks' results. *)
Definition getAllHoldings {E} (net : Brokerage E)
  : completion E (AllHoldings E) :=
  match accountsReply net with
  | Throw e => Throw e
  | Return accounts =>
      let fetched := map (fetchAccount net) accounts in
      let allPositions := map fetchedPositions fetched in
      let flatPositions := List.concat allPositions in
      Return {| resultHoldings := aggregateHoldings flatPositions;
                resultAccounts := map fetchedAccount fetched;
                consoleErrors := List.concat (map fetchedErrors fetched) |}
  end.

(** A brokerage with two accounts, used for the scenarios below: account
    ["A"] holds 10 shares of AAPL and one option contract, the request for
    account ["B"] throws. *)
Definition account_named (i : string) : SnapTradeAccount :=
  {| id := i; name := i; number := i; accountType := "individual";
     accountCurrency := "USD"; balance := 0%float; holdings := [] |}.

Definition one_failing_account : Brokerage string :=
  {| accountsReply := Return [account_named "A"; account_named "B"];
     holdingsReply := fun accountId =>
       if String.eqb accountId "A"
       then Return {| positions :=
                        [ {| raw_symbol := "AAPL";
                             raw_description := None;
                             raw_currency_code := None;
                             raw_units := 10%float;
                             raw_price := 150%float;
                             fractional_units := None;
                             average_purchase_price := Some 120%float |};
                          {| raw_symbol := "AAPL 210917C00150000";
                             raw_description := None;
                             raw_currency_code := None;
                             raw_units := 1%float;
                             raw_price := 5%float;
                             fractional_units := None;
                             average_purchase_price := None |} ];
                      total_value := 1505%float |}
       else Throw "503 Service Unavailable" |}.

(** An account whose only position consists of half a share and no whole
    unit. *)
Definition fractional_account : Brokerage string :=
  {| accountsReply := Return [account_named "F"];
     holdingsReply := fun _ =>
       Return {| positions :=
                   [ {| raw_symbol := "VTI";
                        raw_description := Some "Vanguard Total Stock Market";
                        raw_currency_code := Some "USD";
                        raw_units := 0%float;
                        raw_price := 200%float;
                        fractional_units := Some 0.5%float;
                        average_purchase_price := None |} ];
                 total_value := 100%float |} |}.

End Orchestrator.

(* ================================================================== *)
(** ** Listing the accounts *)

Module Accounts.

Import Js Holdings Orchestrator.

(** [String.prototype.toLowerCase] on one code unit below 256: the letters
    [A]-[Z] and the capital letters of the Latin-1 supplement ([U+00C0] to
    [U+00DE], without the multiplication sign [U+00D7]) move up by 32. *)
Definition lower_code_unit (c : ascii) : ascii :=
  let n := nat_of_ascii c in
  if ((65 <=? n)%nat && (n <=? 90)%nat)
     || ((192 <=? n)%nat && (n <=? 214)%nat)
     || ((216 <=? n)%nat && (n <=? 222)%nat)
  then ascii_of_nat (n + 32)
  else c.

Fixpoint toLowerCase (s : string) : string :=
  match s with
  | EmptyString => EmptyString
  | String c r => String (lower_code_unit c) (toLowerCase r)
  end.

(** The own properties of the object literal [typeMap]. *)
Definition typeMap : list (string * string) :=
  [ ("individual", "individual");
    ("joint", "joint");
    ("ira", "ira");
    ("roth_ira", "roth_ira");
    ("roth ira", "roth_ira");
    ("401k", "401k");
    ("401(k)", "401k") ].

(** [typeMap] is an ordinary object, so a key that is not its own is looked
    up in [Object.prototype]; these are the names that object defines. *)
Definition objectPrototypeProperties : list string :=
  [ "constructor"; "__defineGetter__"; "__defineSetter__"; "hasOwnProperty";
    "__lookupGetter__"; "__lookupSetter__"; "isPrototypeOf";
    "propertyIsEnumerable"; "toString"; "valueOf"; "__proto__";
    "toLocaleString" ].

(** What [typeMap[key] || 'other'] evaluates to: an account-type string, or
    the member of [Object.prototype] of that name (a function or an object,
    truthy in either case). *)
Inductive AccountTypeValue : Type :=
| TypeName (s : string)
| PrototypeMember (name : string).

Fixpoint own_property (key : string) (o : list (string * string))
  : option string :=
  match o with
  | [] => None
  | (k, v) :: o' => if String.eqb k key then Some v else own_property key o'
  end.

(** [typeMap[key]], [None] standing for [undefined]. *)
Definition typeMap_get (key : string) : option AccountTypeValue :=
  match own_property key typeMap with
  | Some v => Some (TypeName v)
  | None =>
      if existsb (String.eqb key) objectPrototypeProperties
      then Some (PrototypeMember key)
      else None
  end.

Definition mapAccountType (type : option string) : AccountTypeValue :=
  let key := or_string (option_map toLowerCase type) "" in
  match typeMap_get key with
  | Some (TypeName EmptyString) => TypeName "other"
  | Some v => v
  | None => TypeName "other"
  end.

(** The six values of the union type [SnapTradeAccount['type']]. *)
Definition accountTypes : list string :=
  ["individual"; "joint"; "ira"; "roth_ira"; "401k"; "other"].

(** The capital letters [A]-[Z], and the strings that contain one. *)
Definition is_capital (c : ascii) : bool :=
  (65 <=? nat_of_ascii c)%nat && (nat_of_ascii c <=? 90)%nat.

Fixpoint has_capital (s : string) : bool :=
  match s with
  | EmptyString => false
  | String c r => is_capital c || has_capital r
  end.

End Accounts.

(* ================================================================== *)
(** ** Parsed JSON *)

Module Json.

Import Js.

(** What [response.json()] resolves to.  Nothing checks it against the
    TypeScript type that the caller names. *)
Inductive value : Type :=
| Null
| Bool (b : bool)
| Number (x : float)
| Str (s : string)
| Array (elements : list value)
| Object (properties : list (string * value)).

(** [ToBoolean]; [None] stands for [undefined]. *)
Definition is_truthy (v : option value) : bool :=
  match v with
  | None => false
  | Some Null => false
  | Some (Bool b) => b
  | Some (Number x) => truthy_num x
  | Some (Str EmptyString) => false
  | Some (Str (String _ _)) => true
  | Some (Array _) => true
  | Some (Object _) => true
  end.

Fixpoint own_value (key : string) (properties : list (string * value))
  : option value :=
  match properties with
  | [] => None
  | (k, v) :: rest => if String.eqb k key then Some v else own_value key rest
  end.

(** [v.key] for a value that is not [null] and for the property names that
    this file reads from parsed JSON ([message], [id], [name], [number],
    [meta], [type], [cash], [currency], [code]).  No prototype defines any
    of them, so only the own properties of an object count; on a boolean, a
    number, a string or an array the result is [undefined]. *)
Definition prop (v : value) (key : string) : option value :=
  match v with
  | Object properties => own_value key properties
  | _ => None
  end.

(** [v.key] *)
Definition read (v : option value) (key : string)
  : completion TypeError (option value) :=
  match v with
  | None => Throw (CannotRead IsUndefined key)
  | Some Null => Throw (CannotRead IsNull key)
  | Some w => Return (prop w key)
  end.

(** [v?.key] *)
Definition read_optional (v : option value) (key : string) : option value :=
  match v with
  | None => None
  | Some Null => None
  | Some w => prop w key
  end.

(** [a || b] *)
Definition or_else (a : option value) (b : value) : value :=
  match a with
  | Some v => if is_truthy a then v else b
  | None => b
  end.

(** The [message] of a [TypeError], in the wording of V8. *)
Definition typeErrorMessage (e : TypeError) : string :=
  match e with
  | CannotRead k property =>
      ("Cannot read properties of " ++ nullish_to_string k
       ++ " (reading '" ++ property ++ "')")%string
  | NotAFunction callee => (callee ++ " is not a function")%string
  | CannotConvertToPrimitive => "Cannot convert object to primitive value"
  end.

(** Whether [String(v)] returns.  A parsed object whose own properties
    include [toString] hides the inherited method behind a value that is
    not callable, and the conversion throws; an array is joined, which
    converts its elements. *)
Fixpoint string_convertible (v : value) : bool :=
  match v with
  | Object properties =>
      match own_value "toString" properties with
      | Some _ => false
      | None => true
      end
  | Array elements => forallb string_convertible elements
  | _ => true
  end.

End Json.

(* ================================================================== *)
(** ** Authenticated requests *)

Module Request.

Import Js Accounts.

(** The codes of [BrokerageErrorCode] that this file produces. *)
Inductive BrokerageErrorCode : Type :=
| INVALID_CREDENTIALS
| RATE_LIMITED
| BROKER_UNAVAILABLE
| UNKNOWN_ERROR.

(** The message that the [Error] constructor stores: the string it is
    given, or the string conversion of another value. *)
Inductive Message : Type :=
| Text (s : string)
| ToStringOf (v : Json.value).

Definition message_of (v : Json.value) : Message :=
  match v with
  | Json.Str s => Text s
  | _ => ToStringOf v
  end.

(** What can be thrown: a [SnapTradeError] with its code, message and
    details, the error with which [response.json()] rejected, or a
    [TypeError] raised while the parsed body is read. *)
Inductive Thrown : Type :=
| SnapTradeError (code : BrokerageErrorCode) (msg : Message)
                 (details : option Json.value)
| OtherError (msg : string)
| RuntimeError (e : TypeError).

Record SnapTradeConfig : Type := mkConfig {
  clientId : string;
  consumerKey : string;
  baseUrl : string
}.

(** [process.env] and the clock. *)
Record Ambient : Type := mkAmbient {
  SNAPTRADE_CLIENT_ID : option string;
  SNAPTRADE_CONSUMER_KEY : option string;
  nowMillis : N                            (* Date.now() *)
}.

Inductive Method : Type := GET | POST | DELETE.

Record HttpRequest : Type := mkRequest {
  url : string;
  method : Method;
  headers : list (string * string);
  body : option string
}.

Record HttpResponse : Type := mkHttpResponse {
  status : N;
  json : completion string Json.value      (* response.json() *)
}.

(** [response.ok]: the status is in the range 200-299. *)
Definition ok (response : HttpResponse) : bool :=
  (200 <=? status response)%N && (status response <=? 299)%N.

Definition SNAPTRADE_BASE_URL : string := "https://api.snaptrade.com/api/v1".

(** A string is truthy when it is present and not empty. *)
Definition truthy_string (s : option string) : bool :=
  match s with
  | Some (String _ _) => true
  | _ => false
  end.

Definition getConfig (env : Ambient) : completion Thrown SnapTradeConfig :=
  if negb (truthy_string (SNAPTRADE_CLIENT_ID env))
     || negb (truthy_string (SNAPTRADE_CONSUMER_KEY env))
  then Throw (SnapTradeError INVALID_CREDENTIALS
    (Text "SnapTrade credentials not configured. Set SNAPTRADE_CLIENT_ID and SNAPTRADE_CONSUMER_KEY environment variables.")
    None)
  else Return {| clientId := Orchestrator.or_string (SNAPTRADE_CLIENT_ID env) "";
                 consumerKey :=
                   Orchestrator.or_string (SNAPTRADE_CONSUMER_KEY env) "";
                 baseUrl := SNAPTRADE_BASE_URL |}.

Definition mapHttpStatusToErrorCode (st : N) : BrokerageErrorCode :=
  if (st =? 401)%N || (st =? 403)%N then INVALID_CREDENTIALS
  else if (st =? 429)%N then RATE_LIMITED
  else if (st =? 503)%N then BROKER_UNAVAILABLE
  else UNKNOWN_ERROR.

(** [String(n)] for a non-negative integer. *)
Definition decimal (n : N) : string :=
  NilZero.string_of_uint (N.to_uint n).

(** The object literal that [getAccounts] builds from one element of the
    response; [None] stands for a field that is [undefined]. *)
Record ListedAccount : Type := mkListed {
  listed_id : option Json.value;
  listed_name : option Json.value;
  listed_number : option Json.value;
  listed_type : AccountTypeValue;
  listed_currency : Json.value;
  listed_balance : Json.value;
  listed_holdings : list Holdings.SnapTradePosition
}.

(** [mapAccountType] on what [acc.meta?.type] holds at run time: a value
    that is neither nullish nor a string has no [toLowerCase] to call. *)
Definition mapAccountType_runtime (type : option Json.value)
  : completion TypeError AccountTypeValue :=
  match type with
  | None => Return (mapAccountType None)
  | Some Json.Null => Return (mapAccountType None)
  | Some (Json.Str s) => Return (mapAccountType (Some s))
  | Some _ => Throw (NotAFunction "type?.toLowerCase")
  end.

(** The arrow function that [getAccounts] maps over the response. *)
Definition toAccount (acc : Json.value) : completion TypeError ListedAccount :=
  match Json.read (Some acc) "id" with
  | Throw e => Throw e
  | Return accId =>
      match mapAccountType_runtime
              (Json.read_optional (Json.prop acc "meta") "type") with
      | Throw e => Throw e
      | Return accType =>
          Return {| listed_id := accId;
                    listed_name := Json.prop acc "name";
                    listed_number := Json.prop acc "number";
                    listed_type := accType;
                    listed_currency :=
                      Json.or_else
                        (Json.read_optional (Json.prop acc "currency") "code")
                        (Json.Str "USD");
                    listed_balance :=
                      Json.or_else (Json.prop acc "cash")
                                   (Json.Number 0%float);
                    listed_holdings := [] |}
      end
  end.

(** [elements.map(toAccount)]: the first element that throws ends the
    call. *)
Fixpoint map_accounts (elements : list Json.value)
  : completion TypeError (list ListedAccount) :=
  match elements with
  | [] => Return []
  | acc :: rest =>
      match toAccount acc with
      | Throw e => Throw e
      | Return a =>
          match map_accounts rest with
          | Throw e => Throw e
          | Return l => Return (a :: l)
          end
      end
  end.

(** An element that [toAccount] can read: not [null], and with a
    [meta.type] that is absent, [null] or a string. *)
Definition account_like (acc : Json.value) : bool :=
  match acc with
  | Json.Null => false
  | _ =>
      match Json.read_optional (Json.prop acc "meta") "type" with
      | None => true
      | Some Json.Null => true
      | Some (Json.Str _) => true
      | Some _ => false
      end
  end.

Section WithCrypto.

(** [crypto.createHmac('sha256', key).update(content).digest('base64')] *)
Variable hmacSha256Base64 : string -> string -> string.

Definition generateSignature (key requestPath timestamp : string)
  (content : option string) : string :=
  hmacSha256Base64 key
    (requestPath ++ timestamp ++ Orchestrator.or_string content "")%string.

(** The request that [snapTradeRequest] hands to [fetch]; [payload] is the
    [JSON.stringify] of the [body] argument when there is one. *)
Definition buildRequest (config : SnapTradeConfig) (env : Ambient)
  (m : Method) (path : string) (payload : option string)
  (userCredentials : option (string * string)) : HttpRequest :=
  let timestamp := decimal (nowMillis env / 1000)%N in
  let bodyStr := match payload with Some b => b | None => "" end in
  {| url := (baseUrl config ++ path)%string;
     method := m;
     headers :=
       [("Content-Type", "application/json");
        ("Timestamp", timestamp);
        ("clientId", clientId config)]
       ++ match userCredentials with
          | Some (userId, userSecret) =>
              [("userId", userId); ("userSecret", userSecret)]
          | None => []
          end
       ++ [("Signature",
            generateSignature (consumerKey config) path timestamp
                              (Some bodyStr))];
     body := payload |}.

Section WithNetwork.

(** [fetch]: it rejects with an error message or resolves to a response. *)
Variable fetch : HttpRequest -> completion string HttpResponse.

(** Inside the [try], reading [errorData.message] of a body that parsed to
    [null] throws a [TypeError], and so does the [Error] constructor on a
    message that cannot be converted to a string; the [catch] wraps both
    like a failure of [fetch].  The parse error of a 2xx response is not
    caught, the promise being returned without [await]. *)
Definition snapTradeRequest (env : Ambient) (m : Method) (path : string)
  (payload : option string) (userCredentials : option (string * string))
  : completion Thrown Json.value :=
  match getConfig env with
  | Throw e => Throw e
  | Return config =>
      match fetch (buildRequest config env m path payload userCredentials) with
      | Throw msg =>
          Throw (SnapTradeError UNKNOWN_ERROR
                   (Text ("Failed to communicate with SnapTrade: " ++ msg))
                   None)
      | Return response =>
          if negb (ok response) then
            let errorData :=
              match json response with
              | Return d => d
              | Throw _ => Json.Object []
              end in
            match Json.read (Some errorData) "message" with
            | Throw e =>
                Throw (SnapTradeError UNKNOWN_ERROR
                         (Text ("Failed to communicate with SnapTrade: "
                                ++ Json.typeErrorMessage e))
                         None)
            | Return errorMessage =>
                let message :=
                  Json.or_else errorMessage
                    (Json.Str ("SnapTrade API error: "
                               ++ decimal (status response))) in
                if Json.string_convertible message then
                  Throw (SnapTradeError
                           (mapHttpStatusToErrorCode (status response))
                           (message_of message)
                           (Some errorData))
                else
                  Throw (SnapTradeError UNKNOWN_ERROR
                           (Text ("Failed to communicate with SnapTrade: "
                                  ++ Json.typeErrorMessage
                                       CannotConvertToPrimitive))
                           None)
            end
          else
            match json response with
            | Return d => Return d
            | Throw msg => Throw (OtherError msg)
            end
      end
  end.

(** [response.map] exists on arrays only. *)
Definition getAccounts (env : Ambient) (userId userSecret : string)
  : completion Thrown (list ListedAccount) :=
  match snapTradeRequest env GET "/accounts" None
                         (Some (userId, userSecret)) with
  | Throw e => Throw e
  | Return response =>
      match response with
      | Json.Array elements =>
          match map_accounts elements with
          | Return accounts => Return accounts
          | Throw e => Throw (RuntimeError e)
          end
      | Json.Null => Throw (RuntimeError (CannotRead IsNull "map"))
      | _ => Throw (RuntimeError (NotAFunction "response.map"))
      end
  end.

Definition validateConnection (env : Ambient) (userId userSecret : string)
  : bool :=
  match getAccounts env userId userSecret with
  | Return _ => true
  | Throw _ => false
  end.

End WithNetwork.

End WithCrypto.

(** An environment with both credentials, one without the client id, and a
    network that answers every request with the same status and body; used
    for the scenarios below. *)
Definition configured : Ambient :=
  {| SNAPTRADE_CLIENT_ID := Some "client-1";
     SNAPTRADE_CONSUMER_KEY := Some "consumer-key";
     nowMillis := 1700000000123 |}.

Definition unconfigured : Ambient :=
  {| SNAPTRADE_CLIENT_ID := None;
     SNAPTRADE_CONSUMER_KEY := Some "consumer-key";
     nowMillis := 1700000000123 |}.

Definition answering (st : N) (parsed : completion string Json.value)
  : HttpRequest -> completion string HttpResponse :=
  fun _ => Return {| status := st; json := parsed |}.

Definition two_accounts : Json.value :=
  Json.Array
    [ Json.Object
        [("id", Json.Str "A"); ("name", Json.Str "Brokerage");
         ("number", Json.Str "001");
         ("meta", Json.Object [("type", Json.Str "Roth IRA")]);
         ("cash", Json.Number 250.5%float);
         ("currency", Json.Object [("code", Json.Str "CAD")])];
      Json.Object
        [("id", Json.Str "B"); ("name", Json.Str "Savings");
         ("number", Json.Str "002")] ].

End Request.

(* ================================================================== *)
(** * Properties of the equity filter *)

Module SymbolFacts.

Import Symbol.

Lemma digits_exactly_sound n : forall s r,
  digits_exactly n s = Some r ->
  exists d, s = (d ++ r)%string /\ String.length d = n /\ AllDigits d.
Proof.
  induction n as [|n IH]; simpl; intros s r H.
  - injection H as <-. exists EmptyString. repeat split. constructor.
  - destruct s as [|c s']; [discriminate|].
    destruct (is_digit c) eqn:Hc; [|discriminate].
    destruct (IH _ _ H) as (d & -> & Hlen & Hd).
    exists (String c d). simpl. repeat split; [congruence|].
    now constructor.
Qed.

Lemma digits_exactly_complete d : forall r,
  AllDigits d -> digits_exactly (String.length d) (d ++ r) = Some r.
Proof.
  induction d as [|c d IH]; simpl; intros r H; [reflexivity|].
  inversion H as [|? ? Hc Hd]; subst. rewrite Hc. now apply IH.
Qed.

Lemma is_C_or_P_iff c : is_C_or_P c = true <-> c = "C"%char \/ c = "P"%char.
Proof.
  unfold is_C_or_P. rewrite orb_true_iff, !Ascii.eqb_eq. tauto.
Qed.

Lemma option_match_here_iff s :
  option_match_here s = true <->
  exists d6 cp ds post,
    s = (d6 ++ String cp (ds ++ post))%string
    /\ String.length d6 = 6 /\ AllDigits d6
    /\ (cp = "C"%char \/ cp = "P"%char)
    /\ ds <> EmptyString /\ AllDigits ds.
Proof.
  unfold option_match_here. split.
  - destruct (digits_exactly 6 s) as [r1|] eqn:H6; [|discriminate].
    destruct r1 as [|cp r2]; [discriminate|]. simpl.
    destruct (is_C_or_P cp) eqn:Hcp; [|discriminate].
    destruct r2 as [|c r3]; [discriminate|]. simpl.
    destruct (is_digit c) eqn:Hc; [|discriminate]. intros _.
    destruct (digits_exactly_sound _ _ _ H6) as (d6 & -> & Hlen & Hd).
    exists d6, cp, (String c EmptyString), r3. simpl.
    repeat split; auto.
    + now apply is_C_or_P_iff.
    + discriminate.
    + constructor; [assumption|constructor].
  - intros (d6 & cp & ds & post & -> & Hlen & Hd & Hcp & Hne & Hds).
    rewrite <- Hlen, digits_exactly_complete by assumption. simpl.
    apply is_C_or_P_iff in Hcp. rewrite Hcp.
    destruct ds as [|c ds]; [congruence|]. simpl.
    inversion Hds as [|? ? Hc _]; subst. now rewrite Hc.
Qed.

Lemma option_match_here_head s :
  option_match_here s = true -> option_regex_test s = true.
Proof.
  destruct s; cbn [option_regex_test]; intros ->; reflexivity.
Qed.

Lemma option_regex_test_iff s :
  option_regex_test s = true <-> OptionPattern s.
Proof.
  split.
  - induction s as [|a s IH].
    + simpl. discriminate.
    + cbn [option_regex_test]. rewrite orb_true_iff. intros [H|H].
      * apply option_match_here_iff in H.
        destruct H as (d6 & cp & ds & post & H).
        exists EmptyString, d6, cp, ds, post. exact H.
      * destruct (IH H) as (pre & d6 & cp & ds & post & -> & H').
        exists (String a pre), d6, cp, ds, post. split; [reflexivity|exact H'].
  - intros (pre & d6 & cp & ds & post & -> & H).
    induction pre as [|a pre IH].
    + apply option_match_here_head, option_match_here_iff.
      exists d6, cp, ds, post. now split.
    + cbn [String.append option_regex_test]. rewrite IH. apply orb_true_r.
Qed.

Lemma includes_char_iff c s :
  includes (String c EmptyString) s = true <-> Contains c s.
Proof.
  unfold Contains. induction s as [|b s IH].
  - simpl. split; [discriminate|].
    intros (pre & post & H). destruct pre; discriminate.
  - cbn [includes String.prefix]. rewrite orb_true_iff. split.
    + intros [H|H].
      * destruct (ascii_dec c b) as [->|]; [|discriminate].
        exists EmptyString, s. reflexivity.
      * apply IH in H. destruct H as (pre & post & ->).
        exists (String b pre), post. reflexivity.
    + intros (pre & post & H). destruct pre as [|a pre]; simpl in H.
      * injection H as -> ->. left.
        destruct (ascii_dec c c); [|congruence]. now destruct post.
      * injection H as -> ->. right. apply IH. now exists pre, post.
Qed.

(** C5. The equity filter rejects a symbol exactly when it matches the
    option pattern (six digits, [C] or [P], digits), contains a space, or
    is longer than five characters and has no period; every other symbol is
    accepted, whatever its length when it has a period.  ["AAPL"] and
    ["BRK.B"] are accepted, the option code ["AAPL 210917C00150000"] is
    rejected, and so is every seven-character symbol without a period. *)
Theorem isEquitySymbol_policy :
  (forall s, isEquitySymbol s = false <-> Rejected s)
  /\ (forall s, isEquitySymbol s = true <-> ~ Rejected s)
  /\ (forall s, Contains "." s -> ~ OptionPattern s -> ~ Contains " " s ->
                isEquitySymbol s = true)
  /\ isEquitySymbol "AAPL" = true
  /\ isEquitySymbol "AAPL 210917C00150000" = false
  /\ OptionPattern "AAPL 210917C00150000"
  /\ isEquitySymbol "BRK.B" = true
  /\ (forall s, String.length s = 7 -> ~ Contains "." s ->
                isEquitySymbol s = false).
Proof.
  assert (Hmain : forall s, isEquitySymbol s = false <-> Rejected s).
  { intros s. unfold isEquitySymbol, Rejected.
    rewrite <- option_regex_test_iff, <- !includes_char_iff.
    destruct (option_regex_test s); [tauto|].
    destruct (includes " " s); [tauto|].
    destruct (5 <? String.length s)%nat eqn:Hlen.
    - apply Nat.ltb_lt in Hlen.
      destruct (includes "." s); simpl; split; intros H; try discriminate; auto.
      destruct H as [H|[H|[_ H]]]; try discriminate. now elim H.
    - apply Nat.ltb_ge in Hlen. simpl. split; [discriminate|].
      intros [H|[H|[H _]]]; try discriminate. lia. }
  assert (Hacc : forall s, isEquitySymbol s = true <-> ~ Rejected s).
  { intros s. rewrite <- Hmain. destruct (isEquitySymbol s); split; congruence. }
  split; [exact Hmain|]. split; [exact Hacc|].
  split.
  { intros s Hdot Hopt Hsp. apply Hacc. intros [H|[H|[_ H]]]; auto. }
  split; [reflexivity|]. split; [reflexivity|].
  split.
  { exists "AAPL ", "210917", "C"%char, "00150000", "". repeat split.
    - repeat constructor.
    - now left.
    - discriminate.
    - repeat constructor. }
  split; [reflexivity|].
  intros s Hlen Hdot. apply Hmain. right. right. split; [lia|assumption].
Qed.

(* ------------------------------------------------------------------ *)
(** ** Symbols without a period *)

Lemma length_append_string s1 s2 :
  String.length (s1 ++ s2)%string = String.length s1 + String.length s2.
Proof. induction s1 as [|c s1 IH]; simpl; [reflexivity|now rewrite IH]. Qed.

Lemma OptionPattern_length s : OptionPattern s -> 8 <= String.length s.
Proof.
  intros (pre & d6 & cp & ds & post & -> & Hlen & _ & _ & Hne & _).
  rewrite !length_append_string. simpl. rewrite length_append_string.
  destruct ds as [|c ds]; [congruence|]. simpl. lia.
Qed.

(** For a symbol that contains neither a period nor a space the option
    pattern never decides: the symbol is accepted exactly when it has at
    most five characters. *)
Theorem plain_symbol_accepted_iff_short :
  forall s : string,
    ~ Contains "." s -> ~ Contains " " s ->
    (isEquitySymbol s = true <-> String.length s <= 5).
Proof.
  intros s Hdot Hsp. unfold isEquitySymbol.
  destruct (includes " " s) eqn:Esp.
  { elim Hsp. now apply includes_char_iff. }
  destruct (includes "." s) eqn:Edot.
  { elim Hdot. now apply includes_char_iff. }
  destruct (option_regex_test s) eqn:Eopt.
  - apply option_regex_test_iff, OptionPattern_length in Eopt.
    split; [discriminate|lia].
  - destruct (5 <? String.length s)%nat eqn:Hlen; simpl.
    + apply Nat.ltb_lt in Hlen. split; [discriminate|lia].
    + apply Nat.ltb_ge in Hlen. split; auto.
Qed.

Lemma plain_symbol_accepted_iff_short_witness :
  isEquitySymbol "GOOGL" = true /\ isEquitySymbol "GOOGLE" = false.
Proof.
  assert (Hno : forall c s, includes (String c EmptyString) s = false ->
                            ~ Contains c s).
  { intros c s H Hc. apply includes_char_iff in Hc. congruence. }
  split.
  - apply (plain_symbol_accepted_iff_short "GOOGL");
      [now apply Hno|now apply Hno|simpl; lia].
  - destruct (isEquitySymbol "GOOGLE") eqn:E; [|reflexivity].
    apply (plain_symbol_accepted_iff_short "GOOGLE") in E;
      [simpl in E; lia|now apply Hno|now apply Hno].
Defined.

End SymbolFacts.

(* ================================================================== *)
(** * Properties of the aggregator *)

Module HoldingsFacts.

Import Js Holdings.

(** ** The map operations *)

Lemma map_get_set_same k v m : map_get k (map_set k v m) = Some v.
Proof.
  induction m as [|[k' v'] m IH]; simpl.
  - now rewrite String.eqb_refl.
  - destruct (String.eqb k' k) eqn:E; simpl; rewrite E; auto.
Qed.

Lemma map_get_set_other k k' v m :
  k <> k' -> map_get k' (map_set k v m) = map_get k' m.
Proof.
  intros Hne. induction m as [|[k0 v0] m IH]; simpl.
  - apply String.eqb_neq in Hne. now rewrite Hne.
  - destruct (String.eqb k0 k) eqn:E; simpl.
    + apply String.eqb_eq in E. subst k0.
      apply String.eqb_neq in Hne. now rewrite Hne.
    + now rewrite IH.
Qed.

Lemma map_get_assign_same k v m :
  map_get k m <> None -> map_get k (map_assign k v m) = Some v.
Proof.
  induction m as [|[k0 v0] m IH]; simpl; [congruence|].
  destruct (String.eqb k0 k) eqn:E; simpl; rewrite E; auto.
Qed.

Lemma map_get_assign_other k k' v m :
  k <> k' -> map_get k' (map_assign k v m) = map_get k' m.
Proof.
  intros Hne. induction m as [|[k0 v0] m IH]; simpl; [reflexivity|].
  destruct (String.eqb k0 k) eqn:E; simpl.
  - apply String.eqb_eq in E. subst k0.
    apply String.eqb_neq in Hne. now rewrite Hne.
  - now rewrite IH.
Qed.

Lemma map_assign_keys k v m : map fst (map_assign k v m) = map fst m.
Proof.
  induction m as [|[k0 v0] m IH]; simpl; [reflexivity|].
  destruct (String.eqb k0 k); simpl; congruence.
Qed.

Lemma map_set_keys_new k v m :
  map_get k m = None -> map fst (map_set k v m) = map fst m ++ [k].
Proof.
  induction m as [|[k0 v0] m IH]; simpl; [reflexivity|].
  destruct (String.eqb k0 k); [discriminate|]. simpl. intros H.
  now rewrite IH.
Qed.

Lemma map_get_None k m : map_get k m = None -> ~ In k (map fst m).
Proof.
  induction m as [|[k0 v0] m IH]; simpl; [tauto|].
  destruct (String.eqb k0 k) eqn:E; [discriminate|].
  apply String.eqb_neq in E. intros H [H'|H']; [congruence|]. now apply IH.
Qed.

Lemma map_get_In k m e : map_get k m = Some e -> In (k, e) m.
Proof.
  induction m as [|[k0 v0] m IH]; simpl; [discriminate|].
  destruct (String.eqb k0 k) eqn:E.
  - apply String.eqb_eq in E. intros [= ->]. left. congruence.
  - intros H. right. now apply IH.
Qed.

Lemma map_assign_In k v m kv :
  In kv (map_assign k v m) -> In kv m \/ kv = (k, v).
Proof.
  induction m as [|[k0 v0] m IH]; simpl; [tauto|].
  destruct (String.eqb k0 k) eqn:E; simpl.
  - apply String.eqb_eq in E. subst k0. intros [<-|H]; auto.
  - intros [<-|H]; auto. destruct (IH H); auto.
Qed.

Lemma map_set_In k v m kv :
  In kv (map_set k v m) -> In kv m \/ kv = (k, v).
Proof.
  induction m as [|[k0 v0] m IH]; simpl.
  - intros [<-|[]]; auto.
  - destruct (String.eqb k0 k) eqn:E; simpl.
    + apply String.eqb_eq in E. subst k0. intros [<-|H]; auto.
    + intros [<-|H]; auto. destruct (IH H); auto.
Qed.

(** ** The loop invariant *)

Lemma well_keyed_nil : well_keyed [].
Proof. split; constructor. Qed.

Lemma well_keyed_ticker m k e :
  well_keyed m -> map_get k m = Some e -> ticker e = k.
Proof.
  intros [_ Hk] Hget. apply map_get_In in Hget.
  rewrite Forall_forall in Hk. exact (Hk _ Hget).
Qed.

Lemma loop_body_well_keyed m pos :
  well_keyed m -> well_keyed (loop_body m pos).
Proof.
  intros Hwk. unfold loop_body.
  destruct (Symbol.isEquitySymbol (symbol pos)); simpl; [|assumption].
  destruct (map_get (symbol pos) m) as [existing|] eqn:Hget.
  - pose proof (well_keyed_ticker _ _ _ Hwk Hget) as Ht.
    destruct Hwk as [Hnd Hk]. split.
    + now rewrite map_assign_keys.
    + rewrite Forall_forall in *. intros kv Hin.
      destruct (map_assign_In _ _ _ _ Hin) as [H| ->]; [now apply Hk|].
      exact Ht.
  - destruct Hwk as [Hnd Hk]. split.
    + rewrite map_set_keys_new by assumption.
      apply NoDup_rev in Hnd. rewrite <- (rev_involutive (_ ++ _)).
      apply NoDup_rev. rewrite rev_app_distr. simpl. constructor; [|assumption].
      rewrite <- in_rev. now apply map_get_None.
    + rewrite Forall_forall in *. intros kv Hin.
      destruct (map_set_In _ _ _ _ Hin) as [H| ->]; [now apply Hk|].
      reflexivity.
Qed.

Lemma fold_loop_body_well_keyed ps : forall m,
  well_keyed m -> well_keyed (fold_left loop_body ps m).
Proof.
  induction ps as [|p ps IH]; simpl; intros m Hm; [assumption|].
  apply IH. now apply loop_body_well_keyed.
Qed.

Lemma reported_map_values t m :
  Forall (fun kv => ticker (snd kv) = fst kv) m ->
  reported t (map_values m) = map_get t m.
Proof.
  unfold reported, map_values.
  induction 1 as [|[k v] m Hkv _ IH]; simpl; [reflexivity|].
  simpl in Hkv. rewrite Hkv. destruct (String.eqb k t); auto.
Qed.

(** ** One ticker at a time *)

Lemma map_get_loop_body t m pos :
  map_get t (loop_body m pos) =
  if Symbol.isEquitySymbol (symbol pos) && String.eqb (symbol pos) t
  then absorb (map_get t m) pos
  else map_get t m.
Proof.
  unfold loop_body.
  destruct (Symbol.isEquitySymbol (symbol pos)); simpl; [|reflexivity].
  destruct (String.eqb (symbol pos) t) eqn:E.
  - apply String.eqb_eq in E. subst t.
    destruct (map_get (symbol pos) m) as [existing|] eqn:Hget; simpl.
    + apply map_get_assign_same. congruence.
    + apply map_get_set_same.
  - apply String.eqb_neq in E.
    destruct (map_get (symbol pos) m) as [existing|].
    + now apply map_get_assign_other.
    + now apply map_get_set_other.
Qed.

Lemma map_get_fold t ps : forall m,
  map_get t (fold_left loop_body ps m) =
  fold_left absorb (contributing t ps) (map_get t m).
Proof.
  unfold contributing.
  induction ps as [|p ps IH]; simpl; intros m; [reflexivity|].
  rewrite IH, map_get_loop_body.
  destruct (Symbol.isEquitySymbol (symbol p) && String.eqb (symbol p) t);
    reflexivity.
Qed.

(** The entry reported for a ticker depends on nothing but the positions
    that contribute to that ticker, in their input order. *)
Lemma reported_consolidate t ps :
  reported t (aggregateHoldings ps) = consolidate (contributing t ps).
Proof.
  unfold aggregateHoldings, consolidate.
  rewrite reported_map_values.
  - apply map_get_fold.
  - apply fold_loop_body_well_keyed, well_keyed_nil.
Qed.

Lemma fold_absorb_Some r : forall h,
  fold_left absorb r (Some h) = Some (fold_left combineHoldings r h).
Proof.
  induction r as [|p r IH]; simpl; intros h; [reflexivity|apply IH].
Qed.

Lemma consolidate_cons p r :
  consolidate (p :: r) = Some (fold_left combineHoldings r (fresh p)).
Proof. unfold consolidate. simpl. apply fold_absorb_Some. Qed.

Lemma shares_fold_combine r : forall h,
  shares (fold_left combineHoldings r h) =
  fold_left PrimFloat.add (map units r) (shares h).
Proof.
  induction r as [|p r IH]; simpl; intros h; [reflexivity|].
  now rewrite IH.
Qed.

Lemma ticker_fold_combine r : forall h,
  ticker (fold_left combineHoldings r h) = ticker h.
Proof.
  induction r as [|p r IH]; simpl; intros h; [reflexivity|].
  now rewrite IH.
Qed.

Lemma currentValue_fold_combine r : forall h v,
  currentValue h = Some v ->
  currentValue (fold_left combineHoldings r h) =
  Some (fold_left add_value (map marketValue r) v).
Proof.
  induction r as [|p r IH]; simpl; intros h v Hv; [assumption|].
  apply IH. simpl. now rewrite Hv.
Qed.

(** ** Facts about binary64 arithmetic *)

Lemma is_zero_inv x :
  PrimFloat.is_zero x = true -> exists s, Prim2SF x = S754_zero s.
Proof.
  unfold PrimFloat.is_zero. rewrite FloatAxioms.eqb_spec.
  change (Prim2SF PrimFloat.zero) with (S754_zero false).
  destruct (Prim2SF x) as [s|s| |s m e]; try discriminate.
  - intros _. now exists s.
  - destruct s; discriminate.
  - destruct s; discriminate.
Qed.

Lemma truthy_num_not_zero x :
  truthy_num x = true -> forall s, Prim2SF x <> S754_zero s.
Proof.
  unfold truthy_num, PrimFloat.is_zero. rewrite FloatAxioms.eqb_spec.
  change (Prim2SF PrimFloat.zero) with (S754_zero false).
  intros H s E. rewrite E in H. discriminate.
Qed.

(** Dividing by [0] or [-0] gives [NaN] or an infinity, never a number. *)
Lemma div_zero x y :
  PrimFloat.is_zero y = true ->
  (x / y)%float = PrimFloat.nan \/ (x / y)%float = PrimFloat.infinity
  \/ (x / y)%float = PrimFloat.neg_infinity.
Proof.
  intros Hy. destruct (is_zero_inv _ Hy) as [sy Ey].
  pose proof (div_spec x y) as Hd. rewrite Ey in Hd.
  destruct (Prim2SF x) as [sx|sx| |sx mx ex]; cbn in Hd.
  - left. now apply Prim2SF_inj.
  - right. destruct (xorb sx sy); [right|left]; now apply Prim2SF_inj.
  - left. now apply Prim2SF_inj.
  - right. destruct (xorb sx sy); [right|left]; now apply Prim2SF_inj.
Qed.

(** Adding [0] or [-0] changes no number but [-0]. *)
Lemma add_zero_r x z :
  PrimFloat.is_zero z = true -> x <> PrimFloat.neg_zero -> (x + z)%float = x.
Proof.
  intros Hz Hx. destruct (is_zero_inv _ Hz) as [sz Ez].
  apply Prim2SF_inj. rewrite add_spec, Ez.
  destruct (Prim2SF x) as [sx|sx| |sx mx ex] eqn:Ex; try reflexivity.
  destruct sx.
  - elim Hx. apply Prim2SF_inj. now rewrite Ex.
  - now destruct sz.
Qed.

Lemma add_zero_neg_zero z :
  PrimFloat.is_zero z = true ->
  (PrimFloat.neg_zero + z)%float = PrimFloat.neg_zero
  \/ (PrimFloat.neg_zero + z)%float = PrimFloat.zero.
Proof.
  intros Hz. destruct (is_zero_inv _ Hz) as [sz Ez].
  pose proof (add_spec PrimFloat.neg_zero z) as H. rewrite Ez in H.
  change (Prim2SF PrimFloat.neg_zero) with (S754_zero true) in H.
  destruct sz; cbn in H; [left|right]; now apply Prim2SF_inj.
Qed.

Lemma or_zero_not_neg_zero v :
  to_number (or_ v (Some 0%float)) <> PrimFloat.neg_zero.
Proof.
  unfold or_. destruct (truthy v) eqn:Hv.
  - destruct v as [x|]; [|discriminate]. simpl in *. intros ->. discriminate.
  - simpl. discriminate.
Qed.

(** ** Share totals *)

Lemma aggregate_ignores_rejected ps : forall m,
  fold_left loop_body ps m =
  fold_left loop_body
    (filter (fun p => Symbol.isEquitySymbol (symbol p)) ps) m.
Proof.
  induction ps as [|p ps IH]; simpl; intros m; [reflexivity|].
  unfold loop_body at 2.
  destruct (Symbol.isEquitySymbol (symbol p)) eqn:E; simpl.
  - rewrite IH. unfold loop_body at 3. now rewrite E.
  - apply IH.
Qed.

(** C1. For every batch and every ticker, the share count reported for the
    ticker is the sum of the unit counts of the positions that carry the
    ticker and pass the equity filter (added in input order, the way the
    loop adds binary64 numbers); a ticker with no such position is not
    reported at all.  Positions that fail the filter change nothing: the
    output is that of the batch without them.  The unit count of a position
    includes its fractional units. *)
Theorem consolidated_shares_sum :
  forall (ps : list SnapTradePosition) (t : string),
    aggregateHoldings ps =
      aggregateHoldings (filter (fun p => Symbol.isEquitySymbol (symbol p)) ps)
    /\ (contributing t ps = [] -> reported t (aggregateHoldings ps) = None)
    /\ (contributing t ps <> [] ->
        exists h, reported t (aggregateHoldings ps) = Some h
                  /\ ticker h = t
                  /\ shares h = sum_numbers (map units (contributing t ps)))
    /\ (forall tv raw,
          units (Orchestrator.toPosition tv raw) =
          (Orchestrator.raw_units raw
           + to_number (or_ (Orchestrator.fractional_units raw)
                            (Some 0%float)))%float).
Proof.
  intros ps t. split; [|split; [|split]].
  - unfold aggregateHoldings. now rewrite aggregate_ignores_rejected.
  - intros H. now rewrite reported_consolidate, H.
  - intros H. rewrite reported_consolidate.
    destruct (contributing t ps) as [|p r] eqn:E; [congruence|].
    rewrite consolidate_cons. eexists. split; [reflexivity|].
    assert (Hp : In p (contributing t ps)) by (rewrite E; now left).
    apply filter_In in Hp. destruct Hp as [_ Hp].
    apply andb_true_iff in Hp. destruct Hp as [_ Hp].
    apply String.eqb_eq in Hp.
    split.
    + now rewrite ticker_fold_combine.
    + now rewrite shares_fold_combine.
  - reflexivity.
Qed.

(** Two AAPL positions in two accounts, an option contract and another
    stock: 1.5 + 2.25 shares of AAPL. *)
Lemma consolidated_shares_sum_witness :
  let ps := [stock "AAPL" 1.5 150 None;
             stock "AAPL 210917C00150000" 1 5 None;
             stock "MSFT" 3 300 None;
             stock "AAPL" 2.25 150 None] in
  contributing "AAPL" ps <> []
  /\ exists h, reported "AAPL" (aggregateHoldings ps) = Some h
               /\ shares h = 3.75%float.
Proof.
  cbv zeta.
  assert (Hne : contributing "AAPL"
                  [stock "AAPL" 1.5 150 None;
                   stock "AAPL 210917C00150000" 1 5 None;
                   stock "MSFT" 3 300 None;
                   stock "AAPL" 2.25 150 None] <> [])
    by (vm_compute; discriminate).
  split; [exact Hne|].
  destruct (consolidated_shares_sum
              [stock "AAPL" 1.5 150 None;
               stock "AAPL 210917C00150000" 1 5 None;
               stock "MSFT" 3 300 None;
               stock "AAPL" 2.25 150 None] "AAPL") as (_ & _ & H & _).
  destruct (H Hne) as (h & Hr & _ & Hs).
  exists h. split; [exact Hr|]. rewrite Hs. vm_compute. reflexivity.
Defined.

(** C9. No two entries of the output carry the same ticker. *)
Theorem aggregate_tickers_unique :
  forall ps : list SnapTradePosition,
    NoDup (map ticker (aggregateHoldings ps)).
Proof.
  intros ps. unfold aggregateHoldings, map_values.
  destruct (fold_loop_body_well_keyed ps [] well_keyed_nil) as [Hnd Hk].
  rewrite map_map.
  replace (map (fun kv => ticker (snd kv)) (fold_left loop_body ps []))
    with (map fst (fold_left loop_body ps [])); [exact Hnd|].
  apply map_ext_in. intros kv Hin. rewrite Forall_forall in Hk.
  symmetry. now apply Hk.
Qed.

(** ** The average purchase price of a merge *)

Lemma averagePrice_both_truthy e p a b :
  averagePrice e = Some a -> averagePurchasePrice p = Some b ->
  truthy_num a = true -> truthy_num b = true ->
  averagePrice (combineHoldings e p) =
  Some ((shares e * a + units p * b) / (shares e + units p))%float.
Proof.
  intros Ha Hb Ta Tb. unfold combineHoldings, and_, or_. cbn [averagePrice].
  rewrite Ha, Hb. cbn [truthy]. rewrite Ta. cbn [truthy]. rewrite Tb.
  reflexivity.
Qed.

Lemma averagePrice_existing_only e p :
  truthy (averagePrice e) = true -> truthy (averagePurchasePrice p) = false ->
  averagePrice (combineHoldings e p) = averagePrice e.
Proof.
  intros Ta Tb. unfold combineHoldings, and_, or_. cbn [averagePrice].
  rewrite Ta. cbv iota. rewrite Tb. reflexivity.
Qed.

Lemma averagePrice_existing_falsy e p :
  truthy (averagePrice e) = false ->
  averagePrice (combineHoldings e p) = averagePurchasePrice p.
Proof.
  intros Ta. unfold combineHoldings, and_, or_. cbn [averagePrice].
  rewrite Ta. cbv iota. rewrite Ta. reflexivity.
Qed.

(** C2, as amended.  When both average purchase prices are known and
    nonzero (truthy), the merged average is the shares-weighted average
    [(existing_shares * existing_avg + incoming_units * incoming_avg) /
    new_total_shares]; when exactly one is known and nonzero, the result is
    that one; when neither is, the result is the incoming value, which is
    then unknown, zero or [NaN].  Two 10-share positions of ["MSFT"] bought
    at 100 and 200 consolidate to 20 shares at 150. *)
Theorem merged_average_price :
  forall (e : PortfolioHolding) (p : SnapTradePosition),
    (forall a b,
        averagePrice e = Some a -> averagePurchasePrice p = Some b ->
        truthy_num a = true -> truthy_num b = true ->
        averagePrice (combineHoldings e p) =
        Some ((shares e * a + units p * b) / (shares e + units p))%float)
    /\ (truthy (averagePrice e) = true ->
        truthy (averagePurchasePrice p) = false ->
        averagePrice (combineHoldings e p) = averagePrice e)
    /\ (truthy (averagePrice e) = false ->
        truthy (averagePurchasePrice p) = true ->
        averagePrice (combineHoldings e p) = averagePurchasePrice p)
    /\ (truthy (averagePrice e) = false ->
        truthy (averagePurchasePrice p) = false ->
        averagePrice (combineHoldings e p) = averagePurchasePrice p
        /\ truthy (averagePrice (combineHoldings e p)) = false)
    /\ (exists h,
          aggregateHoldings [stock "MSFT" 10 300 (Some 100%float);
                             stock "MSFT" 10 300 (Some 200%float)] = [h]
          /\ ticker h = "MSFT" /\ shares h = 20%float
          /\ averagePrice h = Some 150%float).
Proof.
  intros e p. split; [|split; [|split; [|split]]].
  - intros a b. apply averagePrice_both_truthy.
  - apply averagePrice_existing_only.
  - intros Ta _. now apply averagePrice_existing_falsy.
  - intros Ta Tb. rewrite (averagePrice_existing_falsy _ _ Ta). now split.
  - eexists. vm_compute. repeat split.
Qed.

(** The scenario of the specification, at the level of one merge. *)
Lemma merged_average_price_witness :
  let e := fresh (stock "MSFT" 10 300 (Some 100%float)) in
  let p := stock "MSFT" 10 300 (Some 200%float) in
  truthy_num 100 = true /\ truthy_num 200 = true
  /\ averagePrice (combineHoldings e p) = Some 150%float.
Proof.
  cbv zeta. split; [reflexivity|]. split; [reflexivity|].
  destruct (merged_average_price
              (fresh (stock "MSFT" 10 300 (Some 100%float)))
              (stock "MSFT" 10 300 (Some 200%float))) as (H & _).
  rewrite (H 100%float 200%float eq_refl eq_refl eq_refl eq_refl).
  vm_compute. reflexivity.
Defined.

(** C2 fails as stated: an average purchase price that is known to be 0
    counts as unknown.  Merging 10 shares bought at 0 with 10 units bought
    at 100 stores 100, not the weighted average 50; merging 10 shares bought
    at 0 with a position of unknown average stores "unknown", not the one
    known value 0. *)
Lemma merged_average_price_counterexample :
  let bought_at_0 := fresh (stock "MSFT" 10 300 (Some 0%float)) in
  let at_100 := stock "MSFT" 10 300 (Some 100%float) in
  let unknown := stock "MSFT" 10 300 None in
  averagePrice bought_at_0 = Some 0%float
  /\ averagePrice (combineHoldings bought_at_0 at_100) = Some 100%float
  /\ Some ((shares bought_at_0 * 0 + units at_100 * 100)
           / (shares bought_at_0 + units at_100))%float = Some 50%float
  /\ averagePrice (combineHoldings bought_at_0 at_100) <>
     Some ((shares bought_at_0 * 0 + units at_100 * 100)
           / (shares bought_at_0 + units at_100))%float
  /\ averagePrice (combineHoldings bought_at_0 unknown) = None
  /\ averagePrice (combineHoldings bought_at_0 unknown) <> averagePrice bought_at_0
  /\ ~ (forall e p a b,
          averagePrice e = Some a -> averagePurchasePrice p = Some b ->
          averagePrice (combineHoldings e p) =
          Some ((shares e * a + units p * b) / (shares e + units p))%float).
Proof.
  cbv zeta.
  split; [reflexivity|]. split; [vm_compute; reflexivity|].
  split; [vm_compute; reflexivity|]. split; [|split; [|split]].
  - vm_compute. discriminate.
  - vm_compute. reflexivity.
  - vm_compute. discriminate.
  - intros H.
    specialize (H (fresh (stock "MSFT" 10 300 (Some 0%float)))
                  (stock "MSFT" 10 300 (Some 100%float)) 0%float 100%float
                  eq_refl eq_refl).
    vm_compute in H. discriminate H.
Qed.

(** C10. The both-known test is a truthiness test: when the existing
    average price is 0 and the incoming one is a nonzero number, the merge
    stores the incoming value, not the weighted average; when the incoming
    one is 0 and the existing one is a nonzero number, it keeps the existing
    value. *)
Theorem zero_average_price_is_unknown :
  forall (e : PortfolioHolding) (p : SnapTradePosition) (a b : float),
    averagePrice e = Some a -> averagePurchasePrice p = Some b ->
    (PrimFloat.is_zero a = true -> truthy_num b = true ->
     averagePrice (combineHoldings e p) = Some b)
    /\ (truthy_num a = true -> PrimFloat.is_zero b = true ->
        averagePrice (combineHoldings e p) = Some a).
Proof.
  intros e p a b Ha Hb. split.
  - intros Za _. rewrite averagePrice_existing_falsy; [assumption|].
    rewrite Ha. simpl. unfold truthy_num. now rewrite Za.
  - intros Ta Zb. rewrite averagePrice_existing_only.
    + assumption.
    + now rewrite Ha.
    + rewrite Hb. simpl. unfold truthy_num. now rewrite Zb.
Qed.

(** 10 shares bought at 0 merged with 10 units bought at 100: the stored
    average is 100, where the weighted average would be 50. *)
Lemma zero_average_price_is_unknown_witness :
  let e := fresh (stock "MSFT" 10 300 (Some 0%float)) in
  let p := stock "MSFT" 10 300 (Some 100%float) in
  averagePrice e = Some 0%float
  /\ averagePurchasePrice p = Some 100%float
  /\ PrimFloat.is_zero 0 = true /\ truthy_num 100 = true
  /\ averagePrice (combineHoldings e p) = Some 100%float
  /\ ((shares e * 0 + units p * 100) / (shares e + units p))%float
     = 50%float.
Proof.
  cbv zeta. do 4 (split; [reflexivity|]). split; [|reflexivity].
  apply (zero_average_price_is_unknown
           (fresh (stock "MSFT" 10 300 (Some 0%float)))
           (stock "MSFT" 10 300 (Some 100%float))
           0%float 100%float eq_refl eq_refl); reflexivity.
Defined.

(** ** Merges whose share total is zero *)

(** C3 fails as stated: the division is not special-cased.  Merging 10
    shares bought at 100 with -10 units bought at 200 has a combined total
    of 0 and stores [-Infinity]; merging two empty positions stores [NaN].
    In neither case is the existing average price 100 retained. *)
Lemma zero_total_counterexample :
  let e := fresh (stock "T" 10 50 (Some 100%float)) in
  let p := stock "T" (-10) 50 (Some 200%float) in
  let e0 := fresh (stock "T" 0 50 (Some 100%float)) in
  let p0 := stock "T" 0 50 (Some 200%float) in
  (shares e + units p)%float = 0%float
  /\ averagePrice e = Some 100%float
  /\ averagePrice (combineHoldings e p) = Some PrimFloat.neg_infinity
  /\ averagePrice (combineHoldings e p) <> averagePrice e
  /\ (shares e0 + units p0)%float = 0%float
  /\ averagePrice (combineHoldings e0 p0) = Some PrimFloat.nan
  /\ ~ (forall e p,
          PrimFloat.is_zero (shares e + units p) = true ->
          averagePrice (combineHoldings e p) = averagePrice e).
Proof.
  cbv zeta.
  split; [vm_compute; reflexivity|]. split; [reflexivity|].
  split; [vm_compute; reflexivity|]. split; [vm_compute; discriminate|].
  split; [vm_compute; reflexivity|]. split; [vm_compute; reflexivity|].
  intros H.
  specialize (H (fresh (stock "T" 10 50 (Some 100%float)))
                (stock "T" (-10) 50 (Some 200%float)) eq_refl).
  vm_compute in H. discriminate H.
Qed.

(** C3, as amended.  A merge whose combined share total is zero raises no
    exception, and it keeps the existing average purchase price when that
    price is known and nonzero while the incoming one is unknown or zero.
    When both prices are known and nonzero the weighted sum is divided by
    the zero total as in every other merge, and the stored average is [NaN],
    [Infinity] or [-Infinity]. *)
Theorem zero_total_average_price :
  forall (e : PortfolioHolding) (p : SnapTradePosition),
    PrimFloat.is_zero (shares e + units p) = true ->
    (truthy (averagePrice e) = true ->
     truthy (averagePurchasePrice p) = false ->
     averagePrice (combineHoldings e p) = averagePrice e)
    /\ (forall a b,
          averagePrice e = Some a -> averagePurchasePrice p = Some b ->
          truthy_num a = true -> truthy_num b = true ->
          averagePrice (combineHoldings e p) =
            Some ((shares e * a + units p * b) / (shares e + units p))%float
          /\ (averagePrice (combineHoldings e p) = Some PrimFloat.nan
              \/ averagePrice (combineHoldings e p) = Some PrimFloat.infinity
              \/ averagePrice (combineHoldings e p) = Some PrimFloat.neg_infinity)).
Proof.
  intros e p Hz. split.
  - apply averagePrice_existing_only.
  - intros a b Ha Hb Ta Tb.
    rewrite (averagePrice_both_truthy _ _ _ _ Ha Hb Ta Tb).
    split; [reflexivity|].
    destruct (div_zero (shares e * a + units p * b) _ Hz) as [H|[H|H]];
      rewrite H; auto.
Qed.

(** 10 shares bought at 100 merged with -10 units bought at 200. *)
Lemma zero_total_average_price_witness :
  let e := fresh (stock "T" 10 50 (Some 100%float)) in
  let p := stock "T" (-10) 50 (Some 200%float) in
  PrimFloat.is_zero (shares e + units p) = true
  /\ averagePrice (combineHoldings e p) = Some PrimFloat.neg_infinity.
Proof.
  cbv zeta. split; [reflexivity|].
  destruct (zero_total_average_price
              (fresh (stock "T" 10 50 (Some 100%float)))
              (stock "T" (-10) 50 (Some 200%float)) eq_refl) as [_ H].
  destruct (H 100%float 200%float eq_refl eq_refl eq_refl eq_refl) as [H' _].
  rewrite H'. vm_compute. reflexivity.
Defined.

(** ** Merging a position of zero units *)

(** C7 fails as stated.  A zero-unit position that has an average purchase
    price gives it to a holding that had none; merged into a holding of zero
    shares it turns a known average into [NaN]; and merged into a holding of
    3 shares bought at 0.1 it stores [(3 * 0.1 + 0 * 5) / 3], which is not
    the binary64 number 0.1. *)
Lemma zero_units_counterexample :
  let p := stock "T" 0 50 (Some 200%float) in
  let e1 := fresh (stock "T" 10 50 None) in
  let e2 := fresh (stock "T" 0 50 (Some 100%float)) in
  let e3 := fresh (stock "T" 3 50 (Some 0.1%float)) in
  units p = 0%float /\ marketValue p = 0%float
  /\ averagePrice e1 = None
  /\ averagePrice (combineHoldings e1 p) = Some 200%float
  /\ averagePrice e2 = Some 100%float
  /\ averagePrice (combineHoldings e2 p) = Some PrimFloat.nan
  /\ averagePrice (combineHoldings e3 (stock "T" 0 50 (Some 5%float))) =
     Some 0.10000000000000002%float
  /\ averagePrice (combineHoldings e3 (stock "T" 0 50 (Some 5%float))) <>
     averagePrice e3
  /\ ~ (forall e q,
          units q = 0%float ->
          shares (combineHoldings e q) = shares e
          /\ currentValue (combineHoldings e q) = currentValue e
          /\ averagePrice (combineHoldings e q) = averagePrice e).
Proof.
  cbv zeta.
  split; [reflexivity|]. split; [vm_compute; reflexivity|].
  split; [reflexivity|]. split; [vm_compute; reflexivity|].
  split; [reflexivity|]. split; [vm_compute; reflexivity|].
  split; [vm_compute; reflexivity|]. split; [vm_compute; discriminate|].
  intros H.
  destruct (H (fresh (stock "T" 10 50 None))
              (stock "T" 0 50 (Some 200%float)) eq_refl) as (_ & _ & H').
  vm_compute in H'. discriminate H'.
Qed.

(** C7, as amended.  Merging a position of 0 units and 0 market value into
    an existing holding raises no exception and leaves the share count and
    the current value numerically unchanged (a share count of [-0] becomes
    [0]; a current value that is missing, [NaN] or zero is stored as [0]).
    The average purchase price is unchanged when the existing one is known
    and nonzero and the incoming one is unknown or zero; when both are known
    and nonzero it is recomputed as
    [(shares * avg + 0 * incoming_avg) / (shares + 0)]. *)
Theorem zero_units_merge :
  forall (e : PortfolioHolding) (p : SnapTradePosition),
    PrimFloat.is_zero (units p) = true ->
    PrimFloat.is_zero (marketValue p) = true ->
    (shares (combineHoldings e p) = shares e
     \/ (shares e = PrimFloat.neg_zero /\ shares (combineHoldings e p) = 0%float))
    /\ (truthy (currentValue e) = true ->
        currentValue (combineHoldings e p) = currentValue e)
    /\ (truthy (currentValue e) = false ->
        currentValue (combineHoldings e p) = Some 0%float)
    /\ (truthy (averagePrice e) = true ->
        truthy (averagePurchasePrice p) = false ->
        averagePrice (combineHoldings e p) = averagePrice e)
    /\ (forall a b,
          averagePrice e = Some a -> averagePurchasePrice p = Some b ->
          truthy_num a = true -> truthy_num b = true ->
          averagePrice (combineHoldings e p) =
          Some ((shares e * a + units p * b) / (shares e + units p))%float)
    /\ ticker (combineHoldings e p) = ticker e
    /\ holdingCurrency (combineHoldings e p) = holdingCurrency e.
Proof.
  intros e p Hu Hv. split; [|split; [|split; [|split; [|split]]]].
  - unfold combineHoldings. cbn [shares].
    destruct (PrimFloat.Leibniz.eqb (shares e) PrimFloat.neg_zero) eqn:E.
    + apply FloatAxioms.Leibniz.eqb_spec in E. rewrite E.
      destruct (add_zero_neg_zero _ Hu) as [H|H]; [left|right]; auto.
    + left. apply add_zero_r; [assumption|].
      intros H. apply FloatAxioms.Leibniz.eqb_spec in H. congruence.
  - intros Tv. unfold combineHoldings. cbn [currentValue].
    rewrite add_zero_r by (auto using or_zero_not_neg_zero).
    unfold or_. rewrite Tv. now destruct (currentValue e).
  - intros Tv. unfold combineHoldings. cbn [currentValue].
    rewrite add_zero_r by (auto using or_zero_not_neg_zero).
    unfold or_. now rewrite Tv.
  - apply averagePrice_existing_only.
  - intros a b. apply averagePrice_both_truthy.
  - split; reflexivity.
Qed.

(** 10 shares bought at 100 merged with an empty position of unknown
    average price. *)
Lemma zero_units_merge_witness :
  let e := fresh (stock "T" 10 50 (Some 100%float)) in
  let p := stock "T" 0 50 None in
  PrimFloat.is_zero (units p) = true
  /\ PrimFloat.is_zero (marketValue p) = true
  /\ currentValue (combineHoldings e p) = currentValue e
  /\ averagePrice (combineHoldings e p) = averagePrice e.
Proof.
  cbv zeta. split; [reflexivity|]. split; [reflexivity|].
  destruct (zero_units_merge (fresh (stock "T" 10 50 (Some 100%float)))
                             (stock "T" 0 50 None) eq_refl eq_refl)
    as (_ & Hv & _ & Ha & _).
  split; [apply Hv|apply Ha]; reflexivity.
Defined.

(** ** Reordering the batch *)

Lemma Permutation_filter_compat {A} (f : A -> bool) l l' :
  Permutation l l' -> Permutation (filter f l) (filter f l').
Proof.
  induction 1 as [|x l l' _ IH|x y l|l l' l'' _ IH1 _ IH2]; simpl.
  - constructor.
  - destruct (f x); [now constructor|assumption].
  - destruct (f x), (f y); try reflexivity. apply perm_swap.
  - now transitivity (filter f l').
Qed.

Lemma SFadd_comm prec emax x y : SFadd prec emax x y = SFadd prec emax y x.
Proof.
  destruct x as [sx|sx| |sx mx ex], y as [sy|sy| |sy my ey];
    try reflexivity; try (destruct sx, sy; reflexivity).
  unfold SFadd. rewrite (Z.min_comm ex ey). f_equal. apply Z.add_comm.
Qed.

(** binary64 addition is commutative (it is not associative). *)
Lemma float_add_comm x y : (x + y)%float = (y + x)%float.
Proof.
  apply Prim2SF_inj. rewrite !add_spec. apply SFadd_comm.
Qed.

Lemma consolidate_None l : consolidate l = None <-> l = [].
Proof.
  destruct l as [|p r]; [now split|].
  rewrite consolidate_cons. split; discriminate.
Qed.

Lemma consolidate_Some l h :
  consolidate l = Some h ->
  shares h = sum_numbers (map units l)
  /\ currentValue h = Some (sum_values (map marketValue l)).
Proof.
  destruct l as [|p r]; [discriminate|].
  rewrite consolidate_cons. intros [= <-]. split.
  - apply shares_fold_combine.
  - now apply currentValue_fold_combine.
Qed.

(** C4 fails as stated.  With one position of unknown average price and two
    bought at 100 and 200, 10 units each, the consolidated average is
    133.33 or 150 depending on where the first one stands; the units
    0.1, 0.2, 0.3 add up to 0.6000000000000001 in that order and to 0.6 in
    the reverse order; and a market value of [NaN] followed by one of 5
    gives a total value of 5, while 5 followed by [NaN] gives [NaN]. *)
Lemma permutation_counterexample :
  let a := stock "T" 10 50 None in
  let b := stock "T" 10 50 (Some 100%float) in
  let c := stock "T" 10 50 (Some 200%float) in
  let x := stock "T" 0.1 50 None in
  let y := stock "T" 0.2 50 None in
  let z := stock "T" 0.3 50 None in
  let v := stock "T" 1 PrimFloat.nan None in
  let w := stock "T" 1 5 None in
  Permutation [a; b; c] [b; c; a]
  /\ option_map averagePrice (reported "T" (aggregateHoldings [a; b; c]))
     = Some (Some 133.33333333333334%float)
  /\ option_map averagePrice (reported "T" (aggregateHoldings [b; c; a]))
     = Some (Some 150%float)
  /\ Permutation [x; y; z] [z; y; x]
  /\ option_map shares (reported "T" (aggregateHoldings [x; y; z]))
     = Some 0.6000000000000001%float
  /\ option_map shares (reported "T" (aggregateHoldings [z; y; x]))
     = Some 0.6%float
  /\ marketValue v = PrimFloat.nan /\ marketValue w = 5%float
  /\ option_map currentValue (reported "T" (aggregateHoldings [v; w]))
     = Some (Some 5%float)
  /\ option_map currentValue (reported "T" (aggregateHoldings [w; v]))
     = Some (Some PrimFloat.nan)
  /\ ~ (forall ps ps' t h h',
          Permutation ps ps' ->
          reported t (aggregateHoldings ps) = Some h ->
          reported t (aggregateHoldings ps') = Some h' ->
          shares h = shares h' /\ currentValue h = currentValue h'
          /\ averagePrice h = averagePrice h').
Proof.
  cbv zeta.
  split; [apply (Permutation_cons_append [_; _])|].
  split; [vm_compute; reflexivity|]. split; [vm_compute; reflexivity|].
  split; [apply (Permutation_rev [_; _; _])|].
  split; [vm_compute; reflexivity|]. split; [vm_compute; reflexivity|].
  split; [vm_compute; reflexivity|]. split; [vm_compute; reflexivity|].
  split; [vm_compute; reflexivity|]. split; [vm_compute; reflexivity|].
  intros H.
  destruct (H [stock "T" 10 50 None; stock "T" 10 50 (Some 100%float);
               stock "T" 10 50 (Some 200%float)]
              [stock "T" 10 50 (Some 100%float);
               stock "T" 10 50 (Some 200%float); stock "T" 10 50 None]
              "T" _ _
              (Permutation_cons_append [_; _] _) eq_refl eq_refl)
    as (_ & _ & H').
  vm_compute in H'. discriminate H'.
Qed.

Lemma truthy_num_not_neg_zero x :
  truthy_num x = true -> x <> PrimFloat.neg_zero.
Proof. intros H ->. discriminate H. Qed.

Lemma falsy_number_is_zero x :
  truthy_num x = false -> PrimFloat.is_nan x = false ->
  PrimFloat.is_zero x = true.
Proof.
  unfold truthy_num. intros H N. rewrite N, orb_false_r in H.
  now destruct (PrimFloat.is_zero x).
Qed.

Lemma zero_add_zero z :
  PrimFloat.is_zero z = true -> (0 + z)%float = 0%float.
Proof. intros Hz. apply add_zero_r; [assumption|discriminate]. Qed.

Lemma or_zero_truthy x :
  truthy_num x = true -> to_number (or_ (Some x) (Some 0%float)) = x.
Proof. intros H. unfold or_. simpl. now rewrite H. Qed.

Lemma or_zero_falsy x :
  truthy_num x = false -> to_number (or_ (Some x) (Some 0%float)) = 0%float.
Proof. intros H. unfold or_. simpl. now rewrite H. Qed.

(** Adding a market value to [total || 0] is commutative on numbers that
    are not [NaN]. *)
Lemma add_value_comm a b :
  PrimFloat.is_nan a = false -> PrimFloat.is_nan b = false ->
  add_value a b = add_value b a.
Proof.
  intros Na Nb. unfold add_value.
  destruct (truthy_num a) eqn:Ta, (truthy_num b) eqn:Tb.
  - rewrite !or_zero_truthy by assumption. apply float_add_comm.
  - rewrite (or_zero_truthy a), (or_zero_falsy b) by assumption.
    pose proof (falsy_number_is_zero _ Tb Nb) as Zb.
    rewrite (add_zero_r a b Zb (truthy_num_not_neg_zero _ Ta)).
    rewrite float_add_comm. symmetry.
    now apply add_zero_r; [|apply truthy_num_not_neg_zero].
  - rewrite (or_zero_falsy a), (or_zero_truthy b) by assumption.
    pose proof (falsy_number_is_zero _ Ta Na) as Za.
    rewrite (add_zero_r b a Za (truthy_num_not_neg_zero _ Tb)).
    rewrite float_add_comm.
    now apply add_zero_r; [|apply truthy_num_not_neg_zero].
  - rewrite !or_zero_falsy by assumption.
    rewrite !zero_add_zero; [reflexivity| |]; now apply falsy_number_is_zero.
Qed.

(** C4, as amended.  Permuting the batch keeps the set of reported tickers
    and, for each ticker, the collection of contributing positions.  The
    share total is the left-to-right binary64 sum of the same unit counts
    taken in the new order, so the two totals agree up to the rounding of a
    reordered sum.  The total value is accumulated from left to right as
    [(total || 0) + marketValue] over the same market values: a running
    total that is [NaN] is replaced by 0, so beyond rounding the result
    depends on where a [NaN] market value stands.  When the positions of a
    ticker keep their relative order its whole entry is identical.  With
    two contributing positions the share total is the same in both orders,
    the total value is the same when neither market value is [NaN], and the
    average purchase price is the same when at least one of the two
    averages is known and nonzero.  With three or more contributing
    positions the average purchase price depends on the merge order. *)
Theorem aggregate_permutation :
  forall ps ps' : list SnapTradePosition,
    Permutation ps ps' ->
    forall t : string,
      Permutation (contributing t ps) (contributing t ps')
      /\ (reported t (aggregateHoldings ps) = None <->
          reported t (aggregateHoldings ps') = None)
      /\ (forall qs h,
            qs = ps \/ qs = ps' ->
            reported t (aggregateHoldings qs) = Some h ->
            shares h =
              match map units (contributing t qs) with
              | [] => 0%float
              | u :: us => fold_left PrimFloat.add us u
              end
            /\ currentValue h =
               Some match map marketValue (contributing t qs) with
                    | [] => 0%float
                    | v :: vs =>
                        fold_left
                          (fun total v' =>
                             (to_number (or_ (Some total) (Some 0%float))
                              + v')%float)
                          vs v
                    end)
      /\ (contributing t ps = contributing t ps' ->
          reported t (aggregateHoldings ps)
          = reported t (aggregateHoldings ps'))
      /\ (forall p q h h',
            contributing t ps = [p; q] -> contributing t ps' = [q; p] ->
            reported t (aggregateHoldings ps) = Some h ->
            reported t (aggregateHoldings ps') = Some h' ->
            shares h = shares h'
            /\ (PrimFloat.is_nan (marketValue p) = false ->
                PrimFloat.is_nan (marketValue q) = false ->
                currentValue h = currentValue h')
            /\ (truthy (averagePurchasePrice p) = true
                \/ truthy (averagePurchasePrice q) = true ->
                averagePrice h = averagePrice h')).
Proof.
  intros ps ps' Hperm t.
  assert (Hc : Permutation (contributing t ps) (contributing t ps'))
    by now apply Permutation_filter_compat.
  split; [exact Hc|]. split; [|split; [|split]].
  - rewrite !reported_consolidate, !consolidate_None.
    split; intros H; rewrite H in Hc.
    + now apply Permutation_nil.
    + apply Permutation_sym in Hc. now apply Permutation_nil.
  - intros qs h _. rewrite reported_consolidate. apply consolidate_Some.
  - rewrite !reported_consolidate. now intros ->.
  - intros p q h h' E E'. rewrite !reported_consolidate, E, E'.
    rewrite !consolidate_cons. simpl. intros [= <-] [= <-].
    split; [|split].
    + simpl. apply float_add_comm.
    + intros Np Nq. simpl. f_equal. now apply add_value_comm.
    + intros Hknown.
      destruct (truthy (averagePurchasePrice p)) eqn:Tp,
               (truthy (averagePurchasePrice q)) eqn:Tq.
      * destruct (averagePurchasePrice p) as [a|] eqn:Ep; [|discriminate].
        destruct (averagePurchasePrice q) as [b|] eqn:Eq; [|discriminate].
        simpl in Tp, Tq.
        rewrite (averagePrice_both_truthy (fresh p) q a b Ep Eq Tp Tq).
        rewrite (averagePrice_both_truthy (fresh q) p b a Eq Ep Tq Tp).
        simpl. f_equal.
        rewrite (float_add_comm (units q * b) (units p * a)).
        now rewrite (float_add_comm (units q) (units p)).
      * rewrite (averagePrice_existing_only (fresh p) q Tp Tq).
        now rewrite (averagePrice_existing_falsy (fresh q) p Tq).
      * rewrite (averagePrice_existing_falsy (fresh p) q Tp).
        now rewrite (averagePrice_existing_only (fresh q) p Tq Tp).
      * destruct Hknown; discriminate.
Qed.

(** Moving a position of another ticker to the front changes nothing for
    ["T"], and two positions bought at 100 and 200 average 150 in either
    order. *)
Lemma aggregate_permutation_witness :
  let a := stock "T" 10 50 None in
  let b := stock "T" 10 50 (Some 100%float) in
  let c := stock "U" 10 50 (Some 200%float) in
  let d := stock "T" 10 50 (Some 200%float) in
  Permutation [a; b; c] [c; a; b]
  /\ reported "T" (aggregateHoldings [a; b; c])
     = reported "T" (aggregateHoldings [c; a; b])
  /\ Permutation [b; d] [d; b]
  /\ option_map averagePrice (reported "T" (aggregateHoldings [b; d]))
     = option_map averagePrice (reported "T" (aggregateHoldings [d; b])).
Proof.
  cbv zeta.
  assert (P : Permutation
                [stock "T" 10 50 None; stock "T" 10 50 (Some 100%float);
                 stock "U" 10 50 (Some 200%float)]
                [stock "U" 10 50 (Some 200%float); stock "T" 10 50 None;
                 stock "T" 10 50 (Some 100%float)]).
  { symmetry. apply (Permutation_cons_append [_; _]). }
  assert (Q : Permutation
                [stock "T" 10 50 (Some 100%float);
                 stock "T" 10 50 (Some 200%float)]
                [stock "T" 10 50 (Some 200%float);
                 stock "T" 10 50 (Some 100%float)])
    by apply perm_swap.
  split; [exact P|]. split.
  { destruct (aggregate_permutation _ _ P "T") as (_ & _ & _ & H & _).
    apply H. reflexivity. }
  split; [exact Q|].
  destruct (aggregate_permutation _ _ Q "T") as (_ & _ & _ & _ & H).
  destruct (H _ _ _ _ eq_refl eq_refl eq_refl eq_refl) as (_ & _ & Havg).
  exact (f_equal Some (Havg (or_introl eq_refl))).
Defined.

(** ** Totality *)




Lemma accepted_position_reported ps p :
  In p ps -> Symbol.isEquitySymbol (symbol p) = true ->
  exists h, In h (aggregateHoldings ps) /\ ticker h = symbol p.
Proof.
  intros Hin Heq.
  assert (Hc : In p (contributing (symbol p) ps)).
  { apply filter_In. split; [assumption|].
    now rewrite Heq, String.eqb_refl. }
  destruct (reported (symbol p) (aggregateHoldings ps)) as [h|] eqn:Hr.
  - exists h. apply find_some in Hr. destruct Hr as [Hh Ht].
    split; [assumption|now apply String.eqb_eq].
  - rewrite reported_consolidate in Hr. apply consolidate_None in Hr.
    rewrite Hr in Hc. destruct Hc.
Qed.







(* ------------------------------------------------------------------ *)
(** ** Further properties of the aggregator *)

Lemma map_set_new k v m :
  map_get k m = None -> map_set k v m = m ++ [(k, v)].
Proof.
  induction m as [|[k0 v0] m IH]; simpl; [reflexivity|].
  destruct (String.eqb k0 k); [discriminate|]. intros H. now rewrite IH.
Qed.

Lemma map_get_existsb k m :
  existsb (String.eqb k) (map fst m) =
  match map_get k m with Some _ => true | None => false end.
Proof.
  induction m as [|[k0 v0] m IH]; simpl; [reflexivity|].
  rewrite (String.eqb_sym k k0). destruct (String.eqb k0 k); simpl; auto.
Qed.

Lemma map_get_of_In k v m :
  NoDup (map fst m) -> In (k, v) m -> map_get k m = Some v.
Proof.
  induction m as [|[k0 v0] m IH]; simpl; [tauto|].
  intros Hnd [H|H].
  - injection H as -> ->. now rewrite String.eqb_refl.
  - inversion Hnd as [|? ? Hnotin Hnd']; subst.
    destruct (String.eqb k0 k) eqn:E.
    + apply String.eqb_eq in E. subst k0. elim Hnotin.
      apply in_map_iff. now exists (k, v).
    + now apply IH.
Qed.

Lemma filter_filter {A} (f g : A -> bool) l :
  filter f (filter g l) = filter (fun x => g x && f x) l.
Proof.
  induction l as [|x l IH]; simpl; [reflexivity|].
  destruct (g x); simpl; [destruct (f x)|]; now rewrite IH.
Qed.

Lemma keys_fold_loop_body ps : forall m,
  map fst (fold_left loop_body ps m) =
  map fst m
  ++ filter (fun s => negb (existsb (String.eqb s) (map fst m)))
            (distinct (accepted_symbols ps)).
Proof.
  unfold accepted_symbols.
  induction ps as [|p ps IH]; intros m; simpl.
  - now rewrite app_nil_r.
  - rewrite IH. unfold loop_body.
    destruct (Symbol.isEquitySymbol (symbol p)) eqn:Heq; simpl; [|reflexivity].
    pose proof (map_get_existsb (symbol p) m) as Hex.
    rewrite filter_filter.
    destruct (map_get (symbol p) m) as [existing|] eqn:Hget.
    + rewrite map_assign_keys, Hex. simpl. f_equal.
      apply filter_ext_in. intros s _.
      destruct (String.eqb s (symbol p)) eqn:E; simpl; [|reflexivity].
      apply String.eqb_eq in E. subst s. now rewrite Hex.
    + rewrite map_set_keys_new by assumption. rewrite Hex. simpl.
      rewrite <- app_assoc. simpl. do 2 f_equal.
      apply filter_ext. intros s. rewrite existsb_app. simpl.
      rewrite orb_false_r, negb_orb. apply andb_comm.
Qed.

(** The output lists the accepted symbols of the batch, each once, in the
    order in which they first appear. *)
Theorem aggregate_ticker_order :
  forall ps : list SnapTradePosition,
    map ticker (aggregateHoldings ps) = distinct (accepted_symbols ps).
Proof.
  intros ps. unfold aggregateHoldings, map_values.
  destruct (fold_loop_body_well_keyed ps [] well_keyed_nil) as [_ Hk].
  rewrite map_map.
  replace (map (fun kv => ticker (snd kv)) (fold_left loop_body ps []))
    with (map fst (fold_left loop_body ps [])).
  - rewrite keys_fold_loop_body. simpl.
    induction (distinct (accepted_symbols ps)) as [|x l IH]; simpl; congruence.
  - apply map_ext_in. intros kv Hin. rewrite Forall_forall in Hk.
    symmetry. now apply Hk.
Qed.

Lemma entry_consolidate ps h :
  In h (aggregateHoldings ps) ->
  consolidate (contributing (ticker h) ps) = Some h.
Proof.
  unfold aggregateHoldings, map_values. intros Hin.
  apply in_map_iff in Hin. destruct Hin as ([k v] & Hv & Hin).
  simpl in Hv. subst v.
  destruct (fold_loop_body_well_keyed ps [] well_keyed_nil) as [Hnd Hk].
  assert (Hkey : ticker h = k).
  { rewrite Forall_forall in Hk. exact (Hk _ Hin). }
  subst k. apply (map_get_of_In _ _ _ Hnd) in Hin.
  now rewrite map_get_fold in Hin.
Qed.

Lemma holdingCurrency_fold_combine r : forall h,
  holdingCurrency (fold_left combineHoldings r h) = holdingCurrency h.
Proof.
  induction r as [|p r IH]; simpl; intros h; [reflexivity|].
  now rewrite IH.
Qed.

(** Every entry of the output is accounted for by the input: its ticker
    passes the equity filter and is the symbol of at least one position,
    its share count is the sum of the units of those positions, its current
    value is present, and its currency is that of the first of them. *)
Theorem aggregate_entries_from_input :
  forall (ps : list SnapTradePosition) (h : PortfolioHolding),
    In h (aggregateHoldings ps) ->
    Symbol.isEquitySymbol (ticker h) = true
    /\ exists p r,
         contributing (ticker h) ps = p :: r
         /\ In p ps /\ symbol p = ticker h
         /\ shares h = sum_numbers (map units (p :: r))
         /\ currentValue h = Some (sum_values (map marketValue (p :: r)))
         /\ holdingCurrency h = currency p.
Proof.
  intros ps h Hin. apply entry_consolidate in Hin.
  destruct (contributing (ticker h) ps) as [|p r] eqn:E; [discriminate|].
  assert (Hp : In p (contributing (ticker h) ps)) by (rewrite E; now left).
  apply filter_In in Hp. destruct Hp as [Hp Hf].
  apply andb_true_iff in Hf. destruct Hf as [Heq Hs].
  apply String.eqb_eq in Hs.
  split; [now rewrite <- Hs|].
  exists p, r. split; [reflexivity|]. split; [assumption|].
  split; [assumption|].
  destruct (consolidate_Some _ _ Hin) as [Hsh Hcv].
  split; [assumption|]. split; [assumption|].
  rewrite consolidate_cons in Hin. injection Hin as <-.
  apply holdingCurrency_fold_combine.
Qed.

Lemma aggregate_entries_from_input_witness :
  let ps := [stock "AAPL" 1.5 150 None;
             stock "AAPL 210917C00150000" 1 5 None;
             stock "AAPL" 2.25 150 None] in
  exists h, In h (aggregateHoldings ps)
            /\ ticker h = "AAPL" /\ shares h = 3.75%float
            /\ holdingCurrency h = "USD".
Proof.
  cbv zeta.
  assert (Hin : In (mkHolding "AAPL" 3.75 (Some 562.5%float) None "USD")
                   (aggregateHoldings
                      [stock "AAPL" 1.5 150 None;
                       stock "AAPL 210917C00150000" 1 5 None;
                       stock "AAPL" 2.25 150 None]))
    by (vm_compute; left; reflexivity).
  eexists. split; [exact Hin|]. split; [reflexivity|].
  destruct (aggregate_entries_from_input _ _ Hin)
    as (_ & p & r & E & _ & _ & Hs & _ & Hc).
  split; [reflexivity|]. rewrite Hc.
  vm_compute in E. injection E as <- _. reflexivity.
Defined.

Lemma values_fold_loop_body_distinct ps : forall m,
  NoDup (map fst m ++ accepted_symbols ps) ->
  map_values (fold_left loop_body ps m) =
  map_values m
  ++ map fresh (filter (fun p => Symbol.isEquitySymbol (symbol p)) ps).
Proof.
  unfold accepted_symbols, map_values.
  induction ps as [|p ps IH]; intros m Hnd; simpl.
  - now rewrite app_nil_r.
  - simpl in Hnd. unfold loop_body.
    destruct (Symbol.isEquitySymbol (symbol p)) eqn:Heq; simpl in *;
      [|now apply IH].
    assert (Hnone : map_get (symbol p) m = None).
    { destruct (map_get (symbol p) m) as [e|] eqn:Hget; [|reflexivity].
      apply map_get_In in Hget. apply NoDup_remove_2 in Hnd. elim Hnd.
      apply in_or_app. left. apply in_map_iff. now exists (symbol p, e). }
    rewrite Hnone, map_set_new by assumption.
    rewrite IH.
    + rewrite map_app, <- app_assoc. reflexivity.
    + rewrite map_app, <- app_assoc. exact Hnd.
Qed.

(** When no accepted symbol occurs twice in the batch, nothing is merged:
    the output has one entry per accepted position, in input order, holding
    that position's units, market value, average price and currency. *)
Theorem aggregate_distinct_symbols :
  forall ps : list SnapTradePosition,
    NoDup (accepted_symbols ps) ->
    aggregateHoldings ps =
    map fresh (filter (fun p => Symbol.isEquitySymbol (symbol p)) ps).
Proof.
  intros ps Hnd. unfold aggregateHoldings.
  now rewrite values_fold_loop_body_distinct.
Qed.

Lemma aggregate_distinct_symbols_witness :
  let ps := [stock "AAPL" 2 150 (Some 120%float);
             stock "TOOLONG" 1 5 None;
             stock "MSFT" 3 300 None] in
  NoDup (accepted_symbols ps)
  /\ aggregateHoldings ps =
     [fresh (stock "AAPL" 2 150 (Some 120%float));
      fresh (stock "MSFT" 3 300 None)].
Proof.
  cbv zeta.
  assert (Hnd : NoDup (accepted_symbols
                         [stock "AAPL" 2 150 (Some 120%float);
                          stock "TOOLONG" 1 5 None;
                          stock "MSFT" 3 300 None])).
  { vm_compute. repeat constructor; simpl; intuition discriminate. }
  split; [exact Hnd|].
  rewrite (aggregate_distinct_symbols _ Hnd). reflexivity.
Defined.

(** Aggregation is incremental: the entry reported for a ticker after a
    batch followed by further positions is the entry reported after the
    batch alone, with the further contributing positions merged into it one
    by one. *)
Theorem aggregate_append :
  forall (ps qs : list SnapTradePosition) (t : string),
    reported t (aggregateHoldings (ps ++ qs)) =
    fold_left absorb (contributing t qs)
              (reported t (aggregateHoldings ps)).
Proof.
  intros ps qs t. rewrite !reported_consolidate. unfold consolidate, contributing.
  now rewrite filter_app, fold_left_app.
Qed.

Lemma averagePrice_fold_falsy r : forall h,
  truthy (averagePrice h) = true ->
  Forall (fun p => truthy (averagePurchasePrice p) = false) r ->
  averagePrice (fold_left combineHoldings r h) = averagePrice h.
Proof.
  induction r as [|p r IH]; simpl; intros h Th Hr; [reflexivity|].
  inversion Hr as [|? ? Hp Hr']; subst.
  rewrite IH; [| |assumption].
  - now apply averagePrice_existing_only.
  - now rewrite averagePrice_existing_only.
Qed.

Lemma averagePrice_fold_none r : forall h,
  truthy (averagePrice h) = false ->
  Forall (fun p => truthy (averagePurchasePrice p) = false) r ->
  truthy (averagePrice (fold_left combineHoldings r h)) = false.
Proof.
  induction r as [|p r IH]; simpl; intros h Th Hr; [assumption|].
  inversion Hr as [|? ? Hp Hr']; subst.
  apply IH; [|assumption]. now rewrite averagePrice_existing_falsy.
Qed.

(** The aggregator never invents an average purchase price: when no
    contributing position of a ticker has a known nonzero average, the
    reported entry has none either. *)
Theorem aggregate_no_average_invented :
  forall (ps : list SnapTradePosition) (t : string) (h : PortfolioHolding),
    Forall (fun p => truthy (averagePurchasePrice p) = false)
           (contributing t ps) ->
    reported t (aggregateHoldings ps) = Some h ->
    truthy (averagePrice h) = false.
Proof.
  intros ps t h Hall. rewrite reported_consolidate.
  destruct (contributing t ps) as [|p r]; [discriminate|].
  rewrite consolidate_cons. intros [= <-].
  inversion Hall as [|? ? Hp Hr]; subst.
  now apply averagePrice_fold_none.
Qed.

Lemma aggregate_no_average_invented_witness :
  let ps := [stock "T" 10 50 None; stock "T" 5 50 (Some 0%float)] in
  exists h, reported "T" (aggregateHoldings ps) = Some h
            /\ truthy (averagePrice h) = false.
Proof.
  cbv zeta. eexists. split; [vm_compute; reflexivity|].
  apply (aggregate_no_average_invented
           [stock "T" 10 50 None; stock "T" 5 50 (Some 0%float)] "T").
  - vm_compute. repeat constructor.
  - vm_compute. reflexivity.
Defined.

(** A single known average purchase price survives unchanged: when exactly
    one contributing position of a ticker has a known nonzero average, the
    reported average is that value, wherever the position stands in the
    batch and whatever the unit counts are. *)
Theorem aggregate_single_known_average :
  forall (ps : list SnapTradePosition) (t : string)
         (before after : list SnapTradePosition) (p : SnapTradePosition),
    contributing t ps = before ++ p :: after ->
    truthy (averagePurchasePrice p) = true ->
    Forall (fun q => truthy (averagePurchasePrice q) = false) before ->
    Forall (fun q => truthy (averagePurchasePrice q) = false) after ->
    exists h, reported t (aggregateHoldings ps) = Some h
              /\ averagePrice h = averagePurchasePrice p.
Proof.
  intros ps t before after p E Tp Hb Ha.
  rewrite reported_consolidate, E.
  destruct before as [|q before]; simpl.
  - rewrite consolidate_cons. eexists. split; [reflexivity|].
    now rewrite averagePrice_fold_falsy.
  - rewrite consolidate_cons, fold_left_app. simpl.
    eexists. split; [reflexivity|].
    inversion Hb as [|? ? Hq Hb']; subst.
    assert (Hf : truthy (averagePrice (fold_left combineHoldings before (fresh q)))
                 = false) by now apply averagePrice_fold_none.
    rewrite averagePrice_fold_falsy; [| |assumption].
    + now apply averagePrice_existing_falsy.
    + now rewrite averagePrice_existing_falsy.
Qed.

Lemma aggregate_single_known_average_witness :
  let ps := [stock "T" 10 50 None; stock "T" 7 50 (Some 120%float);
             stock "T" 3 50 (Some 0%float)] in
  exists h, reported "T" (aggregateHoldings ps) = Some h
            /\ averagePrice h = Some 120%float.
Proof.
  cbv zeta.
  apply (aggregate_single_known_average
           [stock "T" 10 50 None; stock "T" 7 50 (Some 120%float);
            stock "T" 3 50 (Some 0%float)] "T"
           [stock "T" 10 50 None] [stock "T" 3 50 (Some 0%float)]
           (stock "T" 7 50 (Some 120%float))).
  - vm_compute. reflexivity.
  - reflexivity.
  - repeat constructor.
  - repeat constructor.
Defined.

End HoldingsFacts.

(* ================================================================== *)
(** * Properties of the orchestrator *)

Module OrchestratorFacts.

Import Js Holdings Orchestrator.

(** The positions of the accounts whose request succeeded, in account
    order. *)
Lemma flat_positions_of_succeeded {E} (net : Brokerage E) accounts :
  List.concat (map fetchedPositions (map (fetchAccount net) accounts)) =
  List.concat
    (map (fun a => match getAccountHoldings net (id a) with
                   | Return ps => ps
                   | Throw _ => []
                   end)
         (filter (fun a => match getAccountHoldings net (id a) with
                           | Return _ => true
                           | Throw _ => false
                           end) accounts)).
Proof.
  induction accounts as [|a accounts IH]; simpl; [reflexivity|].
  unfold fetchAccount at 1.
  destruct (getAccountHoldings net (id a)) as [ps|e] eqn:Ha; simpl.
  - rewrite Ha. now rewrite IH.
  - exact IH.
Qed.

Lemma is_finite_inv x :
  PrimFloat.is_finite x = true ->
  (exists s, Prim2SF x = S754_zero s)
  \/ (exists s m e, Prim2SF x = S754_finite s m e).
Proof.
  unfold PrimFloat.is_finite, PrimFloat.is_nan, PrimFloat.is_infinity.
  rewrite !FloatAxioms.eqb_spec, abs_spec.
  change (Prim2SF PrimFloat.infinity) with (S754_infinity false).
  destruct (Prim2SF x) as [s|s| |s m e];
    try discriminate; try (destruct s; discriminate); eauto.
Qed.

(** A position that [getAccountHoldings] builds with zero units at a finite
    price has a zero market value. *)
Lemma toPosition_zero_units totalValue raw :
  PrimFloat.is_zero (units (toPosition totalValue raw)) = true ->
  PrimFloat.is_finite (raw_price raw) = true ->
  PrimFloat.is_zero (marketValue (toPosition totalValue raw)) = true.
Proof.
  cbn [units marketValue toPosition]. intros Hu Hp.
  destruct (HoldingsFacts.is_zero_inv _ Hu) as [su Eu].
  unfold PrimFloat.is_zero. rewrite FloatAxioms.eqb_spec, mul_spec, Eu.
  change (Prim2SF PrimFloat.zero) with (S754_zero false).
  destruct (is_finite_inv _ Hp) as [[s ->]|(s & m & e & ->)]; reflexivity.
Qed.

(** C8. When the request for one account throws, the failure is caught and
    the account contributes an empty list: once the account list has been
    obtained, [getAllHoldings] returns, its consolidated output is the one
    computed from the accounts whose requests succeeded alone, and every
    position of those accounts that passes the equity filter has its entry
    in the output. *)
Theorem getAllHoldings_partial_failure :
  forall (E : Type) (net : Brokerage E) (accounts : list SnapTradeAccount),
    accountsReply net = Return accounts ->
    exists r,
      getAllHoldings net = Return r
      /\ resultHoldings r =
         aggregateHoldings
           (List.concat
              (map (fun a => match getAccountHoldings net (id a) with
                             | Return ps => ps
                             | Throw _ => []
                             end)
                   (filter (fun a => match getAccountHoldings net (id a) with
                                     | Return _ => true
                                     | Throw _ => false
                                     end) accounts)))
      /\ (forall a e,
            In a accounts -> getAccountHoldings net (id a) = Throw e ->
            fetchedPositions (fetchAccount net a) = []
            /\ In (("Failed to fetch holdings for account " ++ id a ++ ":")%string, e)
                  (consoleErrors r))
      /\ (forall a ps p,
            In a accounts -> getAccountHoldings net (id a) = Return ps ->
            In p ps -> Symbol.isEquitySymbol (symbol p) = true ->
            exists h, In h (resultHoldings r) /\ ticker h = symbol p).
Proof.
  intros E net accounts Hacc. unfold getAllHoldings. rewrite Hacc.
  eexists. split; [reflexivity|]. cbn [resultHoldings consoleErrors].
  split; [|split].
  - now rewrite flat_positions_of_succeeded.
  - intros a e Hin Hthrow. unfold fetchAccount. rewrite Hthrow. simpl.
    split; [reflexivity|].
    apply in_concat. eexists. split.
    + apply in_map, in_map. exact Hin.
    + unfold fetchAccount. rewrite Hthrow. now left.
  - intros a ps p Hin Hret Hp Heq.
    apply HoldingsFacts.accepted_position_reported; [|assumption].
    apply in_concat. exists ps. split; [|assumption].
    rewrite map_map. apply in_map_iff. exists a. split; [|assumption].
    unfold fetchAccount. now rewrite Hret.
Qed.

(** The scenario of the specification: account ["B"] throws, the output is
    that of account ["A"], whose option position is filtered out. *)
Lemma getAllHoldings_partial_failure_witness :
  accountsReply one_failing_account
  = Return [account_named "A"; account_named "B"]
  /\ getAccountHoldings one_failing_account "B"
     = Throw "503 Service Unavailable"
  /\ exists r,
       getAllHoldings one_failing_account = Return r
       /\ map ticker (resultHoldings r) = ["AAPL"]
       /\ map shares (resultHoldings r) = [10%float].
Proof.
  split; [reflexivity|]. split; [reflexivity|].
  destruct (getAllHoldings_partial_failure
              string one_failing_account _ eq_refl) as (r & Hr & Hh & _).
  exists r. split; [exact Hr|]. rewrite Hh. split; vm_compute; reflexivity.
Defined.

(* ------------------------------------------------------------------ *)
(** ** Further properties of the orchestrator *)

Lemma fetchAccount_id {E} (net : Brokerage E) a :
  id (fetchedAccount (fetchAccount net a)) = id a.
Proof.
  unfold fetchAccount. now destruct (getAccountHoldings net (id a)).
Qed.

Lemma fetchAccount_holdings {E} (net : Brokerage E) a :
  holdings a = [] ->
  holdings (fetchedAccount (fetchAccount net a)) =
  fetchedPositions (fetchAccount net a).
Proof.
  unfold fetchAccount. now destruct (getAccountHoldings net (id a)).
Qed.

Lemma fetchAccount_errors {E} (net : Brokerage E) a :
  List.length (fetchedErrors (fetchAccount net a)) =
  match getAccountHoldings net (id a) with
  | Return _ => 0
  | Throw _ => 1
  end.
Proof.
  unfold fetchAccount. now destruct (getAccountHoldings net (id a)).
Qed.

(** The two parts of the result of [getAllHoldings] agree.  When the
    accounts come with empty holdings, as [getAccounts] builds them, the
    returned accounts are the listed ones in the same order, the
    consolidated holdings are the aggregate of the holdings stored in the
    returned accounts, and one line is written to the console for each
    account whose request failed. *)
Theorem getAllHoldings_accounts_consistent :
  forall (E : Type) (net : Brokerage E) (accounts : list SnapTradeAccount)
         (r : AllHoldings E),
    accountsReply net = Return accounts ->
    Forall (fun a => holdings a = []) accounts ->
    getAllHoldings net = Return r ->
    map id (resultAccounts r) = map id accounts
    /\ resultHoldings r =
       aggregateHoldings (List.concat (map holdings (resultAccounts r)))
    /\ List.length (consoleErrors r) =
       List.length
         (filter (fun a => match getAccountHoldings net (id a) with
                           | Return _ => false
                           | Throw _ => true
                           end) accounts).
Proof.
  intros E net accounts r Hacc Hempty. unfold getAllHoldings.
  rewrite Hacc. intros [= <-]. cbn [resultAccounts resultHoldings consoleErrors].
  split; [|split].
  - rewrite !map_map. apply map_ext. intros a. apply fetchAccount_id.
  - f_equal. f_equal. rewrite !map_map. apply map_ext_in. intros a Hin.
    rewrite Forall_forall in Hempty. symmetry.
    now apply fetchAccount_holdings, Hempty.
  - clear Hacc Hempty. induction accounts as [|a accounts IH]; [reflexivity|].
    simpl. rewrite length_app, IH, fetchAccount_errors.
    destruct (getAccountHoldings net (id a)); reflexivity.
Qed.

Lemma getAllHoldings_accounts_consistent_witness :
  exists r,
    getAllHoldings one_failing_account = Return r
    /\ map id (resultAccounts r) = ["A"; "B"]
    /\ List.length (consoleErrors r) = 1.
Proof.
  assert (Hempty : Forall (fun a => holdings a = [])
                          [account_named "A"; account_named "B"])
    by (repeat constructor).
  eexists. split; [reflexivity|].
  destruct (getAllHoldings_accounts_consistent
              string one_failing_account
              [account_named "A"; account_named "B"] _ eq_refl Hempty
              eq_refl) as (Hid & _ & Herr).
  split; [exact Hid|exact Herr].
Defined.

Lemma or_string_nonempty a b : b <> EmptyString -> or_string a b <> EmptyString.
Proof. destruct a as [[|c r]|]; simpl; auto; discriminate. Qed.

(** Every position that [getAccountHoldings] returns has a market value
    equal to its units times its price, a non-empty currency code, and a
    description that is non-empty whenever its symbol is; the positions
    come in the order of the response, with its symbols. *)
Theorem getAccountHoldings_positions :
  forall (E : Type) (net : Brokerage E) (accountId : string)
         (response : HoldingsResponse) (ps : list SnapTradePosition),
    holdingsReply net accountId = Return response ->
    getAccountHoldings net accountId = Return ps ->
    map symbol ps = map raw_symbol (positions response)
    /\ Forall (fun p =>
                 marketValue p = (units p * price p)%float
                 /\ currency p <> EmptyString
                 /\ (symbol p <> EmptyString -> description p <> EmptyString))
              ps.
Proof.
  intros E net accountId response ps Hreply. unfold getAccountHoldings.
  rewrite Hreply. intros [= <-]. split.
  - rewrite map_map. reflexivity.
  - apply Forall_forall. intros p Hin. apply in_map_iff in Hin.
    destruct Hin as (raw & <- & _). cbn [marketValue units price currency
                                         symbol description toPosition].
    split; [reflexivity|]. split.
    + apply or_string_nonempty. discriminate.
    + apply or_string_nonempty.
Qed.

Lemma getAccountHoldings_positions_witness :
  exists ps,
    getAccountHoldings one_failing_account "A" = Return ps
    /\ map symbol ps = ["AAPL"; "AAPL 210917C00150000"]
    /\ map currency ps = ["USD"; "USD"].
Proof.
  eexists. split; [reflexivity|].
  destruct (getAccountHoldings_positions
              string one_failing_account "A" _ _ eq_refl eq_refl) as [Hs _].
  split; [exact Hs|reflexivity].
Defined.

Lemma truthy_num_inv x :
  truthy_num x = true ->
  (exists s, Prim2SF x = S754_infinity s)
  \/ (exists s m e, Prim2SF x = S754_finite s m e).
Proof.
  unfold truthy_num, PrimFloat.is_zero, PrimFloat.is_nan.
  rewrite !FloatAxioms.eqb_spec.
  change (Prim2SF PrimFloat.zero) with (S754_zero false).
  destruct (Prim2SF x) as [s|s| |s m e];
    try discriminate; try (destruct s; discriminate); eauto.
Qed.

Lemma is_zero_of_SF x s : Prim2SF x = S754_zero s -> PrimFloat.is_zero x = true.
Proof.
  intros E. unfold PrimFloat.is_zero. rewrite FloatAxioms.eqb_spec, E.
  reflexivity.
Qed.

(** [percentOfPortfolio] is computed from the whole units alone: a position
    that consists of fractional units only is returned with a share of zero
    percent of the portfolio, whatever its market value. *)
Theorem fractional_only_percent_zero :
  forall (E : Type) (net : Brokerage E) (accountId : string)
         (response : HoldingsResponse) (ps : list SnapTradePosition),
    holdingsReply net accountId = Return response ->
    getAccountHoldings net accountId = Return ps ->
    Forall (fun raw =>
              PrimFloat.is_zero (raw_units raw) = true ->
              PrimFloat.is_finite (raw_price raw) = true ->
              exists p, In p ps
                        /\ symbol p = raw_symbol raw
                        /\ units p =
                           (raw_units raw
                            + to_number (or_ (fractional_units raw)
                                             (Some 0%float)))%float
                        /\ PrimFloat.is_zero (percentOfPortfolio p) = true)
           (positions response).
Proof.
  intros E net accountId response ps Hreply. unfold getAccountHoldings.
  rewrite Hreply. intros [= <-]. apply Forall_forall. intros raw Hin Hu Hp.
  eexists. split; [apply in_map; exact Hin|].
  split; [reflexivity|]. split; [reflexivity|].
  cbn [percentOfPortfolio toPosition].
  set (tv := to_number (or_ (Some (total_value response)) (Some 1%float))).
  assert (Htv : truthy_num tv = true).
  { subst tv. unfold or_. simpl.
    destruct (truthy_num (total_value response)) eqn:T; [exact T|reflexivity]. }
  destruct (HoldingsFacts.is_zero_inv _ Hu) as [su Eu].
  assert (H1 : exists s, Prim2SF (raw_units raw * raw_price raw) = S754_zero s).
  { rewrite mul_spec, Eu.
    destruct (is_finite_inv _ Hp) as [[s ->]|(s & m & e & ->)]; cbn; eauto. }
  destruct H1 as [s1 E1].
  assert (H2 : exists s,
             Prim2SF ((raw_units raw * raw_price raw) / tv) = S754_zero s).
  { rewrite div_spec, E1.
    destruct (truthy_num_inv _ Htv) as [[s ->]|(s & m & e & ->)]; cbn; eauto. }
  destruct H2 as [s2 E2].
  apply (is_zero_of_SF _ (xorb s2 false)). rewrite mul_spec, E2.
  reflexivity.
Qed.

Lemma fractional_only_percent_zero_witness :
  exists p,
    getAccountHoldings fractional_account "F" = Return [p]
    /\ units p = 0.5%float /\ marketValue p = 100%float
    /\ PrimFloat.is_zero (percentOfPortfolio p) = true.
Proof.
  eexists. split; [reflexivity|]. split; [reflexivity|].
  split; [reflexivity|].
  pose proof (fractional_only_percent_zero
                string fractional_account "F" _ _ eq_refl eq_refl) as H.
  inversion H as [|raw l Hraw _]; subst.
  destruct (Hraw eq_refl eq_refl) as (p & [<-|[]] & _ & _ & Hz).
  exact Hz.
Defined.

End OrchestratorFacts.

(* ================================================================== *)
(** * Properties of the account listing *)

Module AccountsFacts.

Import Js Holdings Orchestrator Accounts.

Lemma lower_code_unit_not_capital c : is_capital (lower_code_unit c) = false.
Proof.
  destruct c as [b0 b1 b2 b3 b4 b5 b6 b7].
  destruct b0, b1, b2, b3, b4, b5, b6, b7; reflexivity.
Qed.

Lemma toLowerCase_no_capital s : has_capital (toLowerCase s) = false.
Proof.
  induction s as [|c s IH]; simpl; [reflexivity|].
  now rewrite lower_code_unit_not_capital, IH.
Qed.

Lemma key_no_capital type :
  has_capital (or_string (option_map toLowerCase type) "") = false.
Proof.
  destruct type as [t|]; simpl; [|reflexivity].
  pose proof (toLowerCase_no_capital t) as H.
  destruct (toLowerCase t); [reflexivity|exact H].
Qed.

Lemma own_property_In key o v :
  own_property key o = Some v -> In v (map snd o).
Proof.
  induction o as [|[k v0] o IH]; simpl; [discriminate|].
  destruct (String.eqb k key); [intros [= ->]; now left|].
  intros H. right. now apply IH.
Qed.

Lemma existsb_eqb_In key l :
  existsb (String.eqb key) l = true -> In key l.
Proof.
  induction l as [|x l IH]; simpl; [discriminate|].
  destruct (String.eqb key x) eqn:E; simpl.
  - apply String.eqb_eq in E. now left.
  - intros H. right. now apply IH.
Qed.

Lemma typeMap_values v :
  In v (map snd typeMap) -> v <> EmptyString /\ In v accountTypes.
Proof.
  simpl. intros H.
  repeat (destruct H as [<-|H]; [split; [discriminate|simpl; tauto]|]).
  destruct H.
Qed.

Lemma mapAccountType_TypeName type s :
  mapAccountType type = TypeName s -> In s accountTypes.
Proof.
  unfold mapAccountType, typeMap_get.
  destruct (own_property _ typeMap) as [v|] eqn:Hown.
  - apply own_property_In, typeMap_values in Hown. destruct Hown as [Hne Hin].
    destruct v; [congruence|]. now intros [= <-].
  - destruct (existsb _ objectPrototypeProperties); [discriminate|].
    intros [= <-]. simpl. tauto.
Qed.

(** [mapAccountType] returns one of the six account types for every input,
    absent, empty or unknown types giving ["other"], with two exceptions:
    a type that reads [constructor] or [__proto__] once in lower case finds
    the member of that name that [typeMap] inherits, and that member is
    returned instead of an account type.  No other inherited name can be
    hit, because the key is in lower case. *)
Theorem mapAccountType_range :
  forall type : option string,
    let key := or_string (option_map toLowerCase type) "" in
    (key <> "constructor" -> key <> "__proto__" ->
     exists s, mapAccountType type = TypeName s /\ In s accountTypes)
    /\ (key = "constructor" \/ key = "__proto__" ->
        mapAccountType type = PrototypeMember key)
    /\ (key = "" -> mapAccountType type = TypeName "other").
Proof.
  intros type key. split; [|split].
  - intros Hc Hp.
    destruct (mapAccountType type) as [s|name] eqn:E.
    + exists s. split; [reflexivity|]. now apply mapAccountType_TypeName in E.
    + exfalso. revert E. unfold mapAccountType, typeMap_get. fold key.
      destruct (own_property key typeMap) as [v|]; [now destruct v|].
      destruct (existsb (String.eqb key) objectPrototypeProperties) eqn:Hex;
        [|discriminate].
      intros _. apply existsb_eqb_In in Hex.
      pose proof (key_no_capital type) as Hcap. fold key in Hcap.
      simpl in Hex.
      repeat (destruct Hex as [Hex|Hex];
              [first [congruence | rewrite <- Hex in Hcap; discriminate Hcap]|]).
      destruct Hex.
  - unfold mapAccountType. fold key. intros [->| ->]; reflexivity.
  - unfold mapAccountType. fold key. intros ->. reflexivity.
Qed.

Lemma mapAccountType_range_witness :
  (exists s, mapAccountType (Some "Roth IRA") = TypeName s
             /\ In s accountTypes)
  /\ mapAccountType (Some "Constructor") = PrototypeMember "constructor".
Proof.
  destruct (mapAccountType_range (Some "Roth IRA")) as (H & _ & _).
  destruct (mapAccountType_range (Some "Constructor")) as (_ & H' & _).
  split.
  - apply H; discriminate.
  - apply H'. now left.
Defined.

(** Account types are fixed points: mapping a type that [mapAccountType]
    has produced gives the same type again. *)
Theorem mapAccountType_idempotent :
  forall (type : option string) (s : string),
    mapAccountType type = TypeName s ->
    mapAccountType (Some s) = TypeName s.
Proof.
  intros type s H. apply mapAccountType_TypeName in H. simpl in H.
  repeat (destruct H as [<-|H]; [reflexivity|]). destruct H.
Qed.

Lemma mapAccountType_idempotent_witness :
  mapAccountType (Some "401(K)") = TypeName "401k"
  /\ mapAccountType (Some "401k") = TypeName "401k".
Proof.
  split; [reflexivity|].
  exact (mapAccountType_idempotent (Some "401(K)") "401k" eq_refl).
Defined.

End AccountsFacts.

(* ================================================================== *)
(** * Properties of the authenticated requests *)

Module RequestFacts.

Import Js Accounts Request.

Section Facts.

Variable hmac : string -> string -> string.

Ltac break_match :=
  repeat match goal with
         | |- context [match ?x with _ => _ end] => destruct x eqn:?
         end.

Lemma getConfig_missing env :
  truthy_string (SNAPTRADE_CLIENT_ID env) = false
  \/ truthy_string (SNAPTRADE_CONSUMER_KEY env) = false ->
  exists msg, getConfig env = Throw (SnapTradeError INVALID_CREDENTIALS msg None).
Proof.
  unfold getConfig. intros [H|H]; rewrite H; simpl.
  - eauto.
  - rewrite orb_true_r. eauto.
Qed.

Lemma getConfig_Throw env e :
  getConfig env = Throw e ->
  exists text, e = SnapTradeError INVALID_CREDENTIALS text None.
Proof.
  unfold getConfig. destruct (_ || _); [|discriminate].
  intros [= <-]. eauto.
Qed.

Lemma snapTradeRequest_Return fetch env m path payload creds v :
  snapTradeRequest hmac fetch env m path payload creds = Return v <->
  exists config response,
    getConfig env = Return config
    /\ fetch (buildRequest hmac config env m path payload creds)
       = Return response
    /\ ok response = true /\ json response = Return v.
Proof.
  unfold snapTradeRequest. split.
  - destruct (getConfig env) as [config|e]; [|discriminate].
    destruct (fetch _) as [response|err] eqn:Hfetch; [|discriminate].
    destruct (ok response) eqn:Hok; simpl.
    + destruct (json response) as [d|perr] eqn:Hjson; [|discriminate].
      intros [= <-]. now exists config, response.
    + break_match; discriminate.
  - intros (config & response & -> & -> & -> & ->). reflexivity.
Qed.

(** Without credentials nothing is requested: when either environment
    variable is missing or empty, every request throws a [SnapTradeError]
    with the code [INVALID_CREDENTIALS] whatever the network would have
    answered, and [validateConnection] is [false]. *)
Theorem missing_credentials :
  forall (env : Ambient),
    truthy_string (SNAPTRADE_CLIENT_ID env) = false
    \/ truthy_string (SNAPTRADE_CONSUMER_KEY env) = false ->
    exists msg,
      (forall (fetch : HttpRequest -> completion string HttpResponse)
              m path payload creds,
          snapTradeRequest hmac fetch env m path payload creds
          = Throw (SnapTradeError INVALID_CREDENTIALS msg None))
      /\ (forall fetch userId userSecret,
            validateConnection hmac fetch env userId userSecret = false).
Proof.
  intros env Hmiss. destruct (getConfig_missing env Hmiss) as [msg Hcfg].
  exists msg. split.
  - intros fetch m path payload creds. unfold snapTradeRequest.
    now rewrite Hcfg.
  - intros fetch userId userSecret.
    unfold validateConnection, getAccounts, snapTradeRequest.
    now rewrite Hcfg.
Qed.


Lemma value_eq_Null (v : Json.value) : v = Json.Null \/ v <> Json.Null.
Proof. destruct v; [now left|right; discriminate..]. Qed.

Lemma read_not_null v key :
  v <> Json.Null -> Json.read (Some v) key = Return (Json.prop v key).
Proof. destruct v; simpl; congruence. Qed.

Lemma or_else_falsy a b : Json.is_truthy a = false -> Json.or_else a b = b.
Proof. unfold Json.or_else. destruct a; [intros ->|]; reflexivity. Qed.

Lemma or_else_truthy v b :
  Json.is_truthy (Some v) = true -> Json.or_else (Some v) b = v.
Proof. unfold Json.or_else. now intros ->. Qed.

Lemma http_error_result fetch env config m path payload creds response :
  getConfig env = Return config ->
  fetch (buildRequest hmac config env m path payload creds) = Return response ->
  ok response = false ->
  let errorData :=
    match json response with
    | Return d => d
    | Throw _ => Json.Object []
    end in
  errorData <> Json.Null ->
  let message :=
    Json.or_else (Json.prop errorData "message")
      (Json.Str ("SnapTrade API error: " ++ decimal (status response))) in
  snapTradeRequest hmac fetch env m path payload creds =
  if Json.string_convertible message
  then Throw (SnapTradeError (mapHttpStatusToErrorCode (status response))
                             (message_of message) (Some errorData))
  else Throw (SnapTradeError UNKNOWN_ERROR
                (Text ("Failed to communicate with SnapTrade: "
                       ++ Json.typeErrorMessage CannotConvertToPrimitive))
                None).
Proof.
  intros Hcfg Hfetch Hok errorData Hnn message.
  unfold snapTradeRequest. rewrite Hcfg, Hfetch, Hok. cbn [negb].
  fold errorData. rewrite (read_not_null _ _ Hnn). reflexivity.
Qed.

(** A response whose status is outside 200-299 is reported as a
    [SnapTradeError] with the code of the status and the parsed body as
    details, provided the body can be read.  Its message is the [message]
    of the body when that is a non-empty string, the string conversion of
    that property when it is another truthy value, and
    ["SnapTrade API error: <status>"] when the property is missing or
    falsy or the body does not parse.  When the body parses to [null], or
    the [message] property cannot be converted to a string, the
    [TypeError] raised on the way is caught and reported as
    [UNKNOWN_ERROR] with a ["Failed to communicate with SnapTrade: ..."]
    message instead.  A message given as text is never empty. *)
Theorem http_error_reported :
  forall (fetch : HttpRequest -> completion string HttpResponse)
         (env : Ambient) (config : SnapTradeConfig) m path payload creds
         (response : HttpResponse),
    getConfig env = Return config ->
    fetch (buildRequest hmac config env m path payload creds)
    = Return response ->
    ok response = false ->
    let result := snapTradeRequest hmac fetch env m path payload creds in
    let code := mapHttpStatusToErrorCode (status response) in
    let fallback :=
      ("SnapTrade API error: " ++ decimal (status response))%string in
    let errorData :=
      match json response with
      | Return d => d
      | Throw _ => Json.Object []
      end in
    (json response = Return Json.Null ->
     result =
     Throw (SnapTradeError UNKNOWN_ERROR
              (Text "Failed to communicate with SnapTrade: Cannot read properties of null (reading 'message')")
              None))
    /\ (errorData <> Json.Null ->
        Json.is_truthy (Json.prop errorData "message") = false ->
        result = Throw (SnapTradeError code (Text fallback) (Some errorData)))
    /\ (forall text,
          Json.prop errorData "message" = Some (Json.Str text) ->
          text <> EmptyString ->
          result = Throw (SnapTradeError code (Text text) (Some errorData)))
    /\ (forall v,
          Json.prop errorData "message" = Some v ->
          Json.is_truthy (Some v) = true ->
          (forall text, v <> Json.Str text) ->
          (Json.string_convertible v = true ->
           result
           = Throw (SnapTradeError code (ToStringOf v) (Some errorData)))
          /\ (Json.string_convertible v = false ->
              result =
              Throw (SnapTradeError UNKNOWN_ERROR
                       (Text "Failed to communicate with SnapTrade: Cannot convert object to primitive value")
                       None)))
    /\ (forall c msg details,
          result = Throw (SnapTradeError c msg details) ->
          msg <> Text EmptyString).
Proof.
  intros fetch env config m path payload creds response Hcfg Hfetch Hok
         result code fallback errorData.
  pose proof (http_error_result fetch env config m path payload creds
                response Hcfg Hfetch Hok) as Hres.
  cbv zeta in Hres. fold errorData fallback code result in Hres.
  assert (Hprop : forall v, Json.prop errorData "message" = Some v ->
                            errorData <> Json.Null).
  { intros v Hv E. rewrite E in Hv. discriminate. }
  split; [|split; [|split; [|split]]].
  - intros Hnull. subst result. unfold snapTradeRequest.
    rewrite Hcfg, Hfetch, Hok, Hnull. reflexivity.
  - intros Hnn Hfalsy. rewrite (Hres Hnn), (or_else_falsy _ _ Hfalsy).
    reflexivity.
  - intros text Hm Hne. rewrite (Hres (Hprop _ Hm)), Hm.
    rewrite or_else_truthy by (destruct text; [congruence|reflexivity]).
    reflexivity.
  - intros v Hm Ht Hns. rewrite (Hres (Hprop _ Hm)), Hm.
    rewrite (or_else_truthy _ _ Ht). split; intros ->; [|reflexivity].
    destruct v; try reflexivity. elim (Hns s). reflexivity.
  - intros c msg details Hthrow.
    destruct (value_eq_Null errorData) as [Hnull|Hnn].
    + subst result. unfold snapTradeRequest in Hthrow.
      rewrite Hcfg, Hfetch, Hok in Hthrow. cbn [negb] in Hthrow.
      fold errorData in Hthrow. rewrite Hnull in Hthrow. simpl in Hthrow.
      injection Hthrow as <- <- <-. discriminate.
    + rewrite (Hres Hnn) in Hthrow.
      destruct (Json.prop errorData "message") as [v|] eqn:Hm.
      * unfold Json.or_else in Hthrow.
        destruct (Json.is_truthy (Some v)) eqn:Ht.
        -- destruct (Json.string_convertible v);
             injection Hthrow as <- <- <-; [|discriminate].
           destruct v as [| | |[|c0 r0]| |]; simpl in *; discriminate.
        -- injection Hthrow as <- <- <-. discriminate.
      * injection Hthrow as <- <- <-. discriminate.
Qed.

Lemma mapHttpStatusToErrorCode_inv st :
  match mapHttpStatusToErrorCode st with
  | INVALID_CREDENTIALS => st = 401%N \/ st = 403%N
  | RATE_LIMITED => st = 429%N
  | BROKER_UNAVAILABLE => st = 503%N
  | UNKNOWN_ERROR => st <> 401%N /\ st <> 403%N /\ st <> 429%N /\ st <> 503%N
  end.
Proof.
  unfold mapHttpStatusToErrorCode.
  destruct (N.eqb_spec st 401); [now left|].
  destruct (N.eqb_spec st 403); [now right|]. simpl.
  destruct (N.eqb_spec st 429); [assumption|].
  destruct (N.eqb_spec st 503); [assumption|]. tauto.
Qed.

(** What the code of a thrown [SnapTradeError] tells the caller.
    [RATE_LIMITED] means that the server answered 429 and
    [BROKER_UNAVAILABLE] that it answered 503; [INVALID_CREDENTIALS] means
    that the credentials are not configured or that the server answered 401
    or 403.  [UNKNOWN_ERROR] is less specific: [fetch] itself failed, the
    message then carrying its error; or the server answered another status
    outside 200-299; or it answered any status outside 200-299 with a body
    that could not be read (a body that parsed to [null], or a [message]
    that could not be converted to a string), the error then having no
    details. *)
Theorem error_code_meaning :
  forall (fetch : HttpRequest -> completion string HttpResponse)
         (env : Ambient) m path payload creds code msg details,
    snapTradeRequest hmac fetch env m path payload creds
    = Throw (SnapTradeError code msg details) ->
    (exists text, getConfig env = Throw (SnapTradeError code text None)
                  /\ code = INVALID_CREDENTIALS)
    \/ exists config,
         getConfig env = Return config
         /\ let request := buildRequest hmac config env m path payload creds in
            (exists err,
                fetch request = Throw err /\ code = UNKNOWN_ERROR
                /\ msg = Text ("Failed to communicate with SnapTrade: " ++ err))
            \/ (exists response,
                   fetch request = Return response /\ ok response = false
                   /\ ((code = UNKNOWN_ERROR /\ details = None
                        /\ (json response = Return Json.Null
                            \/ exists body v,
                                 json response = Return body
                                 /\ Json.prop body "message" = Some v
                                 /\ Json.string_convertible v = false))
                       \/ (details <> None
                           /\ match code with
                              | INVALID_CREDENTIALS =>
                                  status response = 401%N
                                  \/ status response = 403%N
                              | RATE_LIMITED => status response = 429%N
                              | BROKER_UNAVAILABLE => status response = 503%N
                              | UNKNOWN_ERROR =>
                                  status response <> 401%N
                                  /\ status response <> 403%N
                                  /\ status response <> 429%N
                                  /\ status response <> 503%N
                              end))).
Proof.
  intros fetch env m path payload creds code msg details Hthrow.
  destruct (getConfig env) as [config|e] eqn:Hcfg.
  - right. exists config. split; [reflexivity|]. cbv zeta.
    destruct (fetch (buildRequest hmac config env m path payload creds))
      as [response|err] eqn:Hfetch.
    + right. exists response. split; [reflexivity|].
      destruct (ok response) eqn:Hok.
      { unfold snapTradeRequest in Hthrow.
        rewrite Hcfg, Hfetch, Hok in Hthrow. simpl in Hthrow.
        destruct (json response); discriminate. }
      split; [reflexivity|].
      set (errorData := match json response with
                        | Return d => d
                        | Throw _ => Json.Object []
                        end).
      destruct (value_eq_Null errorData) as [Hnull|Hnn].
      * left. unfold snapTradeRequest in Hthrow.
        rewrite Hcfg, Hfetch, Hok in Hthrow. cbn [negb] in Hthrow.
        fold errorData in Hthrow. rewrite Hnull in Hthrow. simpl in Hthrow.
        injection Hthrow as <- <- <-. split; [reflexivity|].
        split; [reflexivity|]. left. subst errorData.
        destruct (json response) as [d|perr]; [congruence|discriminate].
      * rewrite (http_error_result fetch env config m path payload creds
                   response Hcfg Hfetch Hok Hnn) in Hthrow.
        fold errorData in Hthrow.
        destruct (Json.string_convertible _) eqn:Hconv.
        -- right. injection Hthrow as <- <- <-.
           split; [discriminate|]. apply mapHttpStatusToErrorCode_inv.
        -- left. injection Hthrow as <- <- <-. split; [reflexivity|].
           split; [reflexivity|]. right.
           destruct (Json.prop errorData "message") as [v|] eqn:Hm.
           ++ unfold Json.or_else in Hconv.
              destruct (Json.is_truthy (Some v)); [|discriminate].
              subst errorData.
              destruct (json response) as [body|perr]; [|discriminate].
              now exists body, v.
           ++ discriminate.
    + left. exists err. unfold snapTradeRequest in Hthrow.
      rewrite Hcfg, Hfetch in Hthrow. injection Hthrow as <- <- <-. auto.
  - unfold snapTradeRequest in Hthrow. rewrite Hcfg in Hthrow.
    injection Hthrow as ->. left.
    destruct (getConfig_Throw _ _ Hcfg) as [text [= <- <- <-]]. eauto.
Qed.

Lemma toAccount_Return_like acc a :
  toAccount acc = Return a -> account_like acc = true.
Proof.
  unfold toAccount, account_like, mapAccountType_runtime.
  destruct (value_eq_Null acc) as [->|Hnn]; [discriminate|].
  rewrite (read_not_null _ _ Hnn).
  destruct (Json.read_optional (Json.prop acc "meta") "type") as [[]|];
    try discriminate; intros _; destruct acc; congruence.
Qed.

Lemma or_else_truthy_result a b :
  Json.is_truthy (Some b) = true ->
  Json.is_truthy (Some (Json.or_else a b)) = true.
Proof.
  intros Hb. unfold Json.or_else. destruct a as [v|]; [|exact Hb].
  destruct (Json.is_truthy (Some v)) eqn:T; [exact T|exact Hb].
Qed.

Lemma toAccount_Return acc a :
  toAccount acc = Return a ->
  account_like acc = true
  /\ listed_id a = Json.prop acc "id"
  /\ listed_name a = Json.prop acc "name"
  /\ listed_number a = Json.prop acc "number"
  /\ listed_holdings a = []
  /\ Json.is_truthy (Some (listed_currency a)) = true
  /\ (listed_balance a = Json.Number 0%float
      \/ Json.is_truthy (Some (listed_balance a)) = true).
Proof.
  intros H. split; [exact (toAccount_Return_like _ _ H)|].
  revert H. unfold toAccount.
  destruct (value_eq_Null acc) as [->|Hnn]; [discriminate|].
  rewrite (read_not_null _ _ Hnn).
  destruct (mapAccountType_runtime _) as [ty|e]; [|discriminate].
  intros [= <-]. cbn [listed_id listed_name listed_number listed_holdings
                      listed_currency listed_balance].
  repeat (split; [reflexivity|]). split.
  - now apply or_else_truthy_result.
  - unfold Json.or_else.
    destruct (Json.prop acc "cash") as [v|]; [|now left].
    destruct (Json.is_truthy (Some v)) eqn:T; [now right|now left].
Qed.

Lemma toAccount_account_like acc :
  account_like acc = true -> exists a, toAccount acc = Return a.
Proof.
  unfold toAccount, account_like, mapAccountType_runtime.
  destruct (value_eq_Null acc) as [->|Hnn]; [discriminate|].
  rewrite (read_not_null _ _ Hnn). intros H.
  destruct acc; try congruence;
    destruct (Json.read_optional _ _) as [[]|]; try discriminate; eauto.
Qed.

Lemma map_accounts_Return elements : forall accounts,
  map_accounts elements = Return accounts ->
  Forall2 (fun acc a => toAccount acc = Return a) elements accounts.
Proof.
  induction elements as [|acc rest IH]; simpl; intros accounts.
  - intros [= <-]. constructor.
  - destruct (toAccount acc) as [a|e] eqn:Ha; [|discriminate].
    destruct (map_accounts rest) as [l|e]; [|discriminate].
    intros [= <-]. constructor; [assumption|now apply IH].
Qed.

Lemma map_accounts_total elements :
  forallb account_like elements = true ->
  exists accounts, map_accounts elements = Return accounts.
Proof.
  induction elements as [|acc rest IH]; simpl; [eauto|].
  rewrite andb_true_iff. intros [Ha Hr].
  destruct (toAccount_account_like _ Ha) as [a ->].
  destruct (IH Hr) as [l ->]. eauto.
Qed.

Lemma Forall2_In_left {A B} (R : A -> B -> Prop) l l' x :
  Forall2 R l l' -> In x l -> exists y, In y l' /\ R x y.
Proof.
  induction 1 as [|a b l l' Hab _ IH]; simpl; [tauto|].
  intros [<-|Hin]; [exists b; auto|].
  destruct (IH Hin) as (y & Hy & Hxy). exists y. auto.
Qed.

Lemma getAccounts_Return fetch env userId userSecret accounts :
  getAccounts hmac fetch env userId userSecret = Return accounts ->
  exists config response elements,
    getConfig env = Return config
    /\ fetch (buildRequest hmac config env GET "/accounts" None
                           (Some (userId, userSecret)))
       = Return response
    /\ ok response = true
    /\ json response = Return (Json.Array elements)
    /\ map_accounts elements = Return accounts.
Proof.
  unfold getAccounts.
  destruct (snapTradeRequest _ _ _ _ _ _ _) as [v|e] eqn:Hreq; [|discriminate].
  apply snapTradeRequest_Return in Hreq.
  destruct Hreq as (config & response & Hcfg & Hfetch & Hok & Hjson).
  destruct v as [| | | |elements|]; try discriminate.
  destruct (map_accounts elements) as [l|e] eqn:Hmap; [|discriminate].
  intros [= <-]. now exists config, response, elements.
Qed.

(** When [getAccounts] returns, the request was answered with a status in
    200-299 and a body that parsed to an array, and the listed accounts
    correspond one to one, in order, to the elements of that array: each
    carries the [id], [name] and [number] of its element, starts with no
    holdings, has a truthy currency ([USD] replacing a missing or falsy
    code) and a balance that is never [NaN] (0 replacing a missing or
    falsy cash amount). *)
Theorem getAccounts_listing :
  forall (fetch : HttpRequest -> completion string HttpResponse)
         (env : Ambient) (userId userSecret : string)
         (accounts : list ListedAccount),
    getAccounts hmac fetch env userId userSecret = Return accounts ->
    exists config response elements,
      getConfig env = Return config
      /\ fetch (buildRequest hmac config env GET "/accounts" None
                             (Some (userId, userSecret)))
         = Return response
      /\ ok response = true
      /\ json response = Return (Json.Array elements)
      /\ Forall2
           (fun acc a =>
              listed_id a = Json.prop acc "id"
              /\ listed_name a = Json.prop acc "name"
              /\ listed_number a = Json.prop acc "number"
              /\ listed_holdings a = []
              /\ Json.is_truthy (Some (listed_currency a)) = true
              /\ (listed_balance a = Json.Number 0%float
                  \/ Json.is_truthy (Some (listed_balance a)) = true)
              /\ (forall x, listed_balance a = Json.Number x ->
                            PrimFloat.is_nan x = false))
           elements accounts.
Proof.
  intros fetch env userId userSecret accounts H.
  destruct (getAccounts_Return _ _ _ _ _ H)
    as (config & response & elements & Hcfg & Hfetch & Hok & Hjson & Hmap).
  exists config, response, elements. repeat (split; [assumption|]).
  apply map_accounts_Return in Hmap. revert Hmap. apply Forall2_impl.
  intros acc a Ha.
  destruct (toAccount_Return _ _ Ha) as (_ & H1 & H2 & H3 & H4 & H5 & H6).
  repeat (split; [assumption|]).
  intros x Hx. rewrite Hx in H6. destruct H6 as [[= ->]|H6]; [reflexivity|].
  simpl in H6. unfold truthy_num in H6.
  destruct (PrimFloat.is_nan x); [|reflexivity].
  now rewrite orb_true_r in H6.
Qed.

(** [validateConnection] never throws.  It answers [true] exactly when the
    credentials are configured and the account list request is answered
    with a status in 200-299 and a body that parses to an array of which
    no element is [null] or has a [meta.type] that is neither absent,
    [null] nor a string; in every other case, the parse error and the
    [TypeError]s of a body of another shape included, it answers
    [false]. *)
Theorem validateConnection_iff :
  forall (fetch : HttpRequest -> completion string HttpResponse)
         (env : Ambient) (userId userSecret : string),
    validateConnection hmac fetch env userId userSecret = true <->
    exists config response elements,
      getConfig env = Return config
      /\ fetch (buildRequest hmac config env GET "/accounts" None
                             (Some (userId, userSecret)))
         = Return response
      /\ ok response = true
      /\ json response = Return (Json.Array elements)
      /\ forallb account_like elements = true.
Proof.
  intros fetch env userId userSecret. unfold validateConnection. split.
  - destruct (getAccounts hmac fetch env userId userSecret) as [accounts|e]
      eqn:H; [|discriminate].
    intros _.
    destruct (getAccounts_Return _ _ _ _ _ H)
      as (config & response & elements & Hcfg & Hfetch & Hok & Hjson & Hmap).
    exists config, response, elements. repeat (split; [assumption|]).
    apply map_accounts_Return in Hmap. apply forallb_forall.
    intros acc Hin.
    destruct (Forall2_In_left _ _ _ _ Hmap Hin) as (a & _ & Ha).
    now apply toAccount_Return in Ha.
  - intros (config & response & elements & Hcfg & Hfetch & Hok & Hjson & Hall).
    unfold getAccounts.
    assert (Hreq : snapTradeRequest hmac fetch env GET "/accounts" None
                                    (Some (userId, userSecret))
                   = Return (Json.Array elements)).
    { apply snapTradeRequest_Return. now exists config, response. }
    rewrite Hreq. destruct (map_accounts_total _ Hall) as [l ->]. reflexivity.
Qed.

End Facts.

(** The scenarios: a stand-in for the HMAC, which no property depends on. *)
Lemma missing_credentials_witness :
  truthy_string (SNAPTRADE_CLIENT_ID unconfigured) = false
  /\ validateConnection (fun key content => content)
       (answering 200 (Return (Json.Array [])))
       unconfigured "user" "secret" = false.
Proof.
  split; [reflexivity|].
  destruct (missing_credentials (fun key content => content) unconfigured
                                (or_introl eq_refl)) as (msg & _ & H).
  apply H.
Defined.


(** Status 429 with a body that does not parse, and with a body that
    parses to [null]. *)
Lemma http_error_reported_witness :
  snapTradeRequest (fun key content => content)
    (answering 429 (Throw "Unexpected token"))
    configured GET "/accounts" None None
  = Throw (SnapTradeError RATE_LIMITED (Text "SnapTrade API error: 429")
                          (Some (Json.Object [])))
  /\ snapTradeRequest (fun key content => content)
       (answering 429 (Return Json.Null))
       configured GET "/accounts" None None
     = Throw (SnapTradeError UNKNOWN_ERROR
                (Text "Failed to communicate with SnapTrade: Cannot read properties of null (reading 'message')")
                None).
Proof.
  split.
  - destruct (http_error_reported
                (fun key content => content)
                (answering 429 (Throw "Unexpected token"))
                configured _ GET "/accounts" None None _
                eq_refl eq_refl eq_refl) as (_ & H & _).
    apply H; [discriminate|reflexivity].
  - destruct (http_error_reported
                (fun key content => content)
                (answering 429 (Return Json.Null))
                configured _ GET "/accounts" None None _
                eq_refl eq_refl eq_refl) as (H & _).
    apply H. reflexivity.
Defined.

Lemma error_code_meaning_witness :
  snapTradeRequest (fun key content => content)
    (fun _ => Throw "ECONNRESET") configured GET "/accounts" None None
  = Throw (SnapTradeError UNKNOWN_ERROR
             (Text "Failed to communicate with SnapTrade: ECONNRESET") None)
  /\ exists config, getConfig configured = Return config.
Proof.
  split; [reflexivity|].
  destruct (error_code_meaning
              (fun key content => content)
              (fun _ => Throw "ECONNRESET") configured GET "/accounts"
              None None _ _ _ eq_refl) as [(text & H & _)|(config & H & _)].
  - discriminate H.
  - now exists config.
Defined.

Lemma getAccounts_listing_witness :
  exists accounts,
    getAccounts (fun key content => content)
      (answering 200 (Return two_accounts))
      configured "user" "secret" = Return accounts
    /\ map listed_id accounts = [Some (Json.Str "A"); Some (Json.Str "B")]
    /\ map listed_type accounts = [TypeName "roth_ira"; TypeName "other"]
    /\ map listed_currency accounts = [Json.Str "CAD"; Json.Str "USD"].
Proof.
  eexists. split; [reflexivity|].
  destruct (getAccounts_listing
              (fun key content => content)
              (answering 200 (Return two_accounts))
              configured "user" "secret" _ eq_refl)
    as (config & response & elements & _ & _ & _ & _ & H).
  split; [|split]; reflexivity.
Defined.

(** A 200 answer whose body is an object, not an array. *)
Lemma validateConnection_iff_witness :
  validateConnection (fun key content => content)
    (answering 200 (Return two_accounts)) configured "user" "secret" = true
  /\ validateConnection (fun key content => content)
       (answering 200 (Return (Json.Object []))) configured "user" "secret"
     = false.
Proof.
  split.
  - apply (validateConnection_iff (fun key content => content)).
    eexists. eexists. eexists. repeat split; reflexivity.
  - reflexivity.
Defined.

End RequestFacts.
